(** * saleor-tma-backend: identity verification, catalog mapping and the
      order-placement saga, embedded in Rocq.

    The development follows the Go packages of the repository:

    - [GoStrings], [SHA256], [HMAC], [Hex], [URL], [Strconv], [GoTime]:
      the parts of the Go standard library the repository calls
      (strings, crypto/sha256, crypto/hmac, encoding/hex, net/url,
      strconv, time), written out on bytes and integers;
    - [Telegram]: internal/telegram/initdata.go ([VerifyInitData]);
    - [HTTPTransport]: internal/transport/http/telegram_middleware.go;
    - [Saleor]: the typed boundary of internal/saleor/client.go ([Do]);
    - [TMA]: internal/app/tma/service.go (catalog mapping and PlaceOrder).

    Go strings are byte sequences: they are modelled by [string], whose
    characters are the 256 byte values. *)

From Stdlib Require Import ZArith List Ascii String Bool Lia.
From Stdlib Require Import DecimalString Decimal.
From Stdlib Require Import PrimFloat FloatOps SpecFloat.
From stdpp Require Import base list strings sorting gmap.

Local Open Scope Z_scope.
Set Warnings "-register-all,-inexact-float".

(** ** Bytes *)

Definition byte_of (c : ascii) : Z := Z.of_N (N_of_ascii c).
Definition ascii_of (b : Z) : ascii := ascii_of_N (Z.to_N (b mod 256)).

Definition bytes_of_string (s : string) : list Z :=
  map byte_of (list_ascii_of_string s).
Definition string_of_bytes (l : list Z) : string :=
  string_of_list_ascii (map ascii_of l).

(** ** crypto/sha256 (FIPS 180-4), on 32-bit words kept in [Z]. *)
Module SHA256.

Definition w32 (x : Z) : Z := x mod 2 ^ 32.
Definition add32 (a b : Z) : Z := w32 (a + b).
Definition rotr (n x : Z) : Z :=
  Z.lor (Z.shiftr x n) (w32 (Z.shiftl x (32 - n))).
Definition not32 (x : Z) : Z := w32 (Z.lnot x).

Definition Ch (x y z : Z) : Z := Z.lxor (Z.land x y) (Z.land (not32 x) z).
Definition Maj (x y z : Z) : Z :=
  Z.lxor (Z.lxor (Z.land x y) (Z.land x z)) (Z.land y z).
Definition Sigma0 (x : Z) : Z :=
  Z.lxor (Z.lxor (rotr 2 x) (rotr 13 x)) (rotr 22 x).
Definition Sigma1 (x : Z) : Z :=
  Z.lxor (Z.lxor (rotr 6 x) (rotr 11 x)) (rotr 25 x).
Definition sigma0 (x : Z) : Z :=
  Z.lxor (Z.lxor (rotr 7 x) (rotr 18 x)) (Z.shiftr x 3).
Definition sigma1 (x : Z) : Z :=
  Z.lxor (Z.lxor (rotr 17 x) (rotr 19 x)) (Z.shiftr x 10).

(** The constants of FIPS 180-4 are defined from the primes: the round
    constants are the first 32 bits of the fractional parts of the cube
    roots of the first 64 primes, the initial hash value those of the
    square roots of the first 8 primes. *)
Definition is_prime (n : nat) : bool :=
  (1 <? n)%nat
  && forallb (fun d => negb (Nat.eqb (n mod d) 0)) (seq 2 (n - 2)).

Definition primes64 : list Z :=
  Eval vm_compute in map Z.of_nat (filter (fun n => is_prime n = true) (seq 2 310)).

(** The largest [r] below [2 ^ bits] with [r ^ 3 <= x], bit by bit. *)
Fixpoint cube_root (bits : nat) (x r : Z) : Z :=
  match bits with
  | O => r
  | S b =>
      let r' := r + 2 ^ Z.of_nat b in
      cube_root b x (if r' ^ 3 <=? x then r' else r)
  end.

Definition frac_cbrt (p : Z) : Z := w32 (cube_root 36 (p * 2 ^ 96) 0).
Definition frac_sqrt (p : Z) : Z := w32 (Z.sqrt (p * 2 ^ 64)).

Definition K : list Z := Eval vm_compute in map frac_cbrt primes64.

(** Big-endian encoding of [x] on [n] bytes. *)
Fixpoint be_bytes (n : nat) (x : Z) : list Z :=
  match n with
  | O => []
  | S n' => (Z.shiftr x (8 * Z.of_nat n')) mod 256 :: be_bytes n' x
  end.

Definition be_word (bs : list Z) : Z :=
  fold_left (fun acc b => acc * 256 + b) bs 0.

(** Padding: the byte 0x80, zeros up to 56 mod 64, the bit length on
    eight bytes. *)
Definition pad (msg : list Z) : list Z :=
  let len := Z.of_nat (length msg) in
  msg ++ [0x80] ++ repeat 0 (Z.to_nat ((55 - len) mod 64))
      ++ be_bytes 8 (8 * len).

Fixpoint chunks (fuel : nat) (size : nat) (l : list Z) : list (list Z) :=
  match fuel with
  | O => []
  | S fuel' =>
      match l with
      | [] => []
      | _ => firstn size l :: chunks fuel' size (skipn size l)
      end
  end.

Definition block_words (block : list Z) : list Z :=
  map be_word (chunks 16 4 block).

(** Message schedule; [rev_w] holds W[t-1], W[t-2], ... *)
Fixpoint schedule (n : nat) (rev_w : list Z) : list Z :=
  match n with
  | O => rev rev_w
  | S n' =>
      let wt :=
        add32 (add32 (sigma1 (nth 1 rev_w 0)) (nth 6 rev_w 0))
              (add32 (sigma0 (nth 14 rev_w 0)) (nth 15 rev_w 0)) in
      schedule n' (wt :: rev_w)
  end.

Record state := mkState {
  sa : Z; sb : Z; sc : Z; sd : Z; se : Z; sf : Z; sg : Z; sh : Z }.

Definition round (s : state) (kw : Z * Z) : state :=
  let '(k, w) := kw in
  let t1 :=
    add32 (add32 (add32 (sh s) (Sigma1 (se s)))
                 (add32 (Ch (se s) (sf s) (sg s)) k)) w in
  let t2 := add32 (Sigma0 (sa s)) (Maj (sa s) (sb s) (sc s)) in
  mkState (add32 t1 t2) (sa s) (sb s) (sc s)
          (add32 (sd s) t1) (se s) (sf s) (sg s).

Definition compress (h : state) (block : list Z) : state :=
  let w := schedule 48 (rev (block_words block)) in
  let s := fold_left round (combine K w) h in
  mkState (add32 (sa h) (sa s)) (add32 (sb h) (sb s))
          (add32 (sc h) (sc s)) (add32 (sd h) (sd s))
          (add32 (se h) (se s)) (add32 (sf h) (sf s))
          (add32 (sg h) (sg s)) (add32 (sh h) (sh s)).

Definition init : state :=
  Eval vm_compute in
    match map frac_sqrt (firstn 8 primes64) with
    | [a; b; c; d; e; f; g; h] => mkState a b c d e f g h
    | _ => mkState 0 0 0 0 0 0 0 0
    end.

Definition digest_bytes (s : state) : list Z :=
  flat_map (be_bytes 4)
    [sa s; sb s; sc s; sd s; se s; sf s; sg s; sh s].

(** sha256.Sum256 *)
Definition Sum256 (msg : list Z) : list Z :=
  let p := pad msg in
  digest_bytes (fold_left compress (chunks (length p) 64 p) init).

End SHA256.

(** ** crypto/hmac with SHA-256 (RFC 2104): block size 64. *)
Module HMAC.

Definition block_key (key : list Z) : list Z :=
  let k := if Z.of_nat (length key) >? 64 then SHA256.Sum256 key else key in
  k ++ repeat 0 (64 - length k)%nat.

(** hmac.New(sha256.New, key); mac.Write(msg); mac.Sum(nil) *)
Definition Sum (key msg : list Z) : list Z :=
  let k := block_key key in
  let ipad := map (Z.lxor 0x36) k in
  let opad := map (Z.lxor 0x5c) k in
  SHA256.Sum256 (opad ++ SHA256.Sum256 (ipad ++ msg)).

End HMAC.

(** ** encoding/hex *)
Module Hex.

Definition hextable : string := "0123456789abcdef".

Definition digit (n : Z) : ascii :=
  match String.get (Z.to_nat n) hextable with
  | Some c => c
  | None => "0"%char
  end.

(** hex.EncodeToString *)
Fixpoint EncodeToString (bs : list Z) : string :=
  match bs with
  | [] => EmptyString
  | b :: bs' =>
      String (digit (Z.shiftr b 4)) (String (digit (Z.land b 15))
        (EncodeToString bs'))
  end.

End Hex.

(** ** strings *)
Module GoStrings.

Definition is_byte (c : ascii) (b : Z) : bool := byte_of c =? b.

(** The ASCII white space of strings.TrimSpace's fast path. *)
Definition asciiSpace (c : ascii) : bool :=
  is_byte c 9 || is_byte c 10 || is_byte c 11 || is_byte c 12
  || is_byte c 13 || is_byte c 32.

(** unicode.IsSpace on the two-byte UTF-8 sequences: U+0085, U+00A0. *)
Definition space2 (c1 c2 : ascii) : bool :=
  is_byte c1 0xC2 && (is_byte c2 0x85 || is_byte c2 0xA0).

(** unicode.IsSpace on the three-byte UTF-8 sequences: U+1680,
    U+2000..U+200A, U+2028, U+2029, U+202F, U+205F, U+3000. *)
Definition space3 (c1 c2 c3 : ascii) : bool :=
  (is_byte c1 0xE1 && is_byte c2 0x9A && is_byte c3 0x80)
  || (is_byte c1 0xE2 && is_byte c2 0x80
      && ((0x80 <=? byte_of c3) && (byte_of c3 <=? 0x8A)
          || is_byte c3 0xA8 || is_byte c3 0xA9 || is_byte c3 0xAF))
  || (is_byte c1 0xE2 && is_byte c2 0x81 && is_byte c3 0x9F)
  || (is_byte c1 0xE3 && is_byte c2 0x80 && is_byte c3 0x80).

(** strings.TrimLeftFunc(s, unicode.IsSpace) *)
Fixpoint TrimLeftSpace (s : string) : string :=
  match s with
  | EmptyString => s
  | String c1 r1 =>
      if asciiSpace c1 then TrimLeftSpace r1
      else match r1 with
           | EmptyString => s
           | String c2 r2 =>
               if space2 c1 c2 then TrimLeftSpace r2
               else match r2 with
                    | EmptyString => s
                    | String c3 r3 =>
                        if space3 c1 c2 c3 then TrimLeftSpace r3 else s
                    end
           end
  end.

(** The same scan on the reversed string: strings.TrimRightFunc decodes
    the last rune, whose bytes appear here in reverse order. *)
Fixpoint TrimLeftSpace_rev (s : string) : string :=
  match s with
  | EmptyString => s
  | String c1 r1 =>
      if asciiSpace c1 then TrimLeftSpace_rev r1
      else match r1 with
           | EmptyString => s
           | String c2 r2 =>
               if space2 c2 c1 then TrimLeftSpace_rev r2
               else match r2 with
                    | EmptyString => s
                    | String c3 r3 =>
                        if space3 c3 c2 c1 then TrimLeftSpace_rev r3 else s
                    end
           end
  end.

Definition TrimRightSpace (s : string) : string :=
  String.rev (TrimLeftSpace_rev (String.rev s)).

(** strings.TrimSpace *)
Definition TrimSpace (s : string) : string :=
  TrimRightSpace (TrimLeftSpace s).

(** strings.HasPrefix *)
Fixpoint HasPrefix (s prefix : string) : bool :=
  match prefix with
  | EmptyString => true
  | String p ps =>
      match s with
      | EmptyString => false
      | String c cs => Ascii.eqb c p && HasPrefix cs ps
      end
  end.

(** strings.Split(s, sep) for a one-byte separator, as at every call
    site of the repository. *)
Fixpoint Split (s : string) (sep : ascii) : list string :=
  match s with
  | EmptyString => [EmptyString]
  | String c r =>
      if Ascii.eqb c sep then EmptyString :: Split r sep
      else match Split r sep with
           | x :: xs => String c x :: xs
           | [] => [String c EmptyString]
           end
  end.

(** strings.Cut(s, sep) for a one-byte separator: before, after, found. *)
Fixpoint Cut (s : string) (sep : ascii) : string * string * bool :=
  match s with
  | EmptyString => (EmptyString, EmptyString, false)
  | String c r =>
      if Ascii.eqb c sep then (EmptyString, r, true)
      else let '(b, a, f) := Cut r sep in (String c b, a, f)
  end.

(** strings.Contains(s, sep) for a one-byte [sep]. *)
Fixpoint Contains (s : string) (sep : ascii) : bool :=
  match s with
  | EmptyString => false
  | String c r => Ascii.eqb c sep || Contains r sep
  end.

(** strings.Join *)
Fixpoint Join (elems : list string) (sep : string) : string :=
  match elems with
  | [] => EmptyString
  | [x] => x
  | x :: xs => x +:+ sep +:+ Join xs sep
  end.

Definition lower_byte (c : ascii) : ascii :=
  let b := byte_of c in
  if (65 <=? b) && (b <=? 90) then ascii_of (b + 32) else c.

(** strings.ToLower on the ASCII letters. Bytes from 0x80 on are kept
    as they are: the only caller compares the result with a string of
    hexadecimal digits, which no rune outside ASCII lowers to, so that
    comparison fails in Go and here alike. *)
Fixpoint ToLower (s : string) : string :=
  match s with
  | EmptyString => EmptyString
  | String c r => String (lower_byte c) (ToLower r)
  end.

End GoStrings.

(** ** net/url: query parsing *)
Module URL.

(** url.Values *)
Abbreviation Values := (gmap string (list string)).

Inductive QueryError :=
  | EscapeError
  | SemicolonError.

(** Values.Get *)
Definition Get (v : Values) (key : string) : string :=
  match v !! key with
  | Some (x :: _) => x
  | _ => EmptyString
  end.

Definition ishex (c : ascii) : bool :=
  let b := byte_of c in
  (48 <=? b) && (b <=? 57) || (97 <=? b) && (b <=? 102)
  || (65 <=? b) && (b <=? 70).

Definition unhex (c : ascii) : Z :=
  let b := byte_of c in
  if (48 <=? b) && (b <=? 57) then b - 48
  else if (97 <=? b) && (b <=? 102) then b - 97 + 10
  else if (65 <=? b) && (b <=? 70) then b - 65 + 10
  else 0.

(** url.QueryUnescape: %XX is a byte, + is a space; a % that is not
    followed by two hexadecimal digits is an error. *)
Fixpoint QueryUnescape (s : string) : option string :=
  match s with
  | EmptyString => Some EmptyString
  | String c r =>
      if GoStrings.is_byte c 37 then
        match r with
        | String h1 (String h2 r') =>
            if ishex h1 && ishex h2 then
              String (ascii_of (unhex h1 * 16 + unhex h2)) <$> QueryUnescape r'
            else None
        | _ => None
        end
      else if GoStrings.is_byte c 43 then String " "%char <$> QueryUnescape r
      else String c <$> QueryUnescape r
  end.

Definition first_err (err : option QueryError) (e : QueryError) :=
  match err with
  | Some _ => err
  | None => Some e
  end.

(** The loop of url.parseQuery; every turn cuts the query at the first
    ampersand, so a fuel of one more than its length is enough. *)
Fixpoint parseQuery (fuel : nat) (m : Values) (err : option QueryError)
    (query : string) : Values * option QueryError :=
  match fuel with
  | O => (m, err)
  | S fuel' =>
      if decide (query = EmptyString) then (m, err) else
      let '(key, query', _) := GoStrings.Cut query "&"%char in
      if GoStrings.Contains key ";"%char then
        parseQuery fuel' m (Some SemicolonError) query'
      else if decide (key = EmptyString) then
        parseQuery fuel' m err query'
      else
        let '(key, value, _) := GoStrings.Cut key "="%char in
        match QueryUnescape key with
        | None => parseQuery fuel' m (first_err err EscapeError) query'
        | Some key =>
            match QueryUnescape value with
            | None => parseQuery fuel' m (first_err err EscapeError) query'
            | Some value =>
                parseQuery fuel'
                  (<[key := default [] (m !! key) ++ [value]]> m) err query'
            end
        end
  end.

(** url.ParseQuery *)
Definition ParseQuery (query : string) : Values * option QueryError :=
  parseQuery (S (String.length query)) ∅ None query.

End URL.

(** ** strconv *)
Module Strconv.

Definition int64_min : Z := - 2 ^ 63.
Definition int64_max : Z := 2 ^ 63 - 1.

Fixpoint digits (acc : Z) (s : string) : option Z :=
  match s with
  | EmptyString => Some acc
  | String c r =>
      let b := byte_of c in
      if (48 <=? b) && (b <=? 57) then digits (acc * 10 + (b - 48)) r
      else None
  end.

Definition unsigned (s : string) : option Z :=
  match s with
  | EmptyString => None
  | _ => digits 0 s
  end.

(** strconv.ParseInt(s, 10, 64): an optional sign, then decimal digits;
    [None] stands for both the syntax and the range error. *)
Definition ParseInt (s : string) : option Z :=
  let signed :=
    match s with
    | EmptyString => None
    | String c r =>
        if GoStrings.is_byte c 43 then unsigned r
        else if GoStrings.is_byte c 45 then Z.opp <$> unsigned r
        else unsigned s
    end in
  match signed with
  | Some n => if (int64_min <=? n) && (n <=? int64_max) then Some n else None
  | None => None
  end.

(** fmt.Sprintf("%d", n) *)
Definition FormatInt (n : Z) : string :=
  NilZero.string_of_int (Z.to_int n).

End Strconv.

(** ** time *)
Module GoTime.

(** time.Duration: nanoseconds in an int64. *)
Definition minDuration : Z := - 2 ^ 63.
Definition maxDuration : Z := 2 ^ 63 - 1.
Definition Second : Z := 1000000000.
Definition Minute : Z := 60 * Second.

Definition unixToInternal : Z := 62135596800.

Definition wrap64 (x : Z) : Z := (x + 2 ^ 63) mod 2 ^ 64 - 2 ^ 63.

(** A wall-clock instant: seconds since January 1, year 1 (an int64)
    and nanoseconds within the second. *)
Record Time := mkTime { sec : Z; nsec : Z }.

(** time.Unix(sec, 0) *)
Definition Unix (s : Z) : Time := mkTime (wrap64 (s + unixToInternal)) 0.

Definition saturate (d : Z) : Z :=
  if d <? minDuration then minDuration
  else if maxDuration <? d then maxDuration
  else d.

(** Time.Sub: the difference, or the minimum or maximum duration when it
    does not fit. *)
Definition Sub (t u : Time) : Z :=
  saturate ((sec t - sec u) * Second + (nsec t - nsec u)).

(** time.Since(t) with the clock reading [now]. *)
Definition Since (now t : Time) : Z := Sub now t.

End GoTime.

(** ** encoding/json, for the two decode targets of the repository: the
    Telegram user object and a list of strings. *)
Module JSON.

Inductive value :=
  | JNull
  | JBool (b : bool)
  | JNumber (lit : string)
  | JString (s : string)
  | JArray (elems : list value)
  | JObject (members : list (string * value)).

Definition maxNestingDepth : nat := Z.to_nat 10000.

Definition isSpace (c : ascii) : bool :=
  GoStrings.is_byte c 32 || GoStrings.is_byte c 9
  || GoStrings.is_byte c 13 || GoStrings.is_byte c 10.

Fixpoint skip_ws (s : string) : string :=
  match s with
  | String c r => if isSpace c then skip_ws r else s
  | EmptyString => s
  end.

Definition in_range (lo hi : Z) (c : ascii) : bool :=
  (lo <=? byte_of c) && (byte_of c <=? hi).

Definition isDigit (c : ascii) : bool := in_range 48 57 c.
Definition isCont (c : ascii) : bool := in_range 0x80 0xBF c.

(** utf8.EncodeRune *)
Definition EncodeRune (r : Z) : string :=
  if r <? 0x80 then string_of_bytes [r]
  else if r <? 0x800 then
    string_of_bytes [Z.lor 0xC0 (Z.shiftr r 6); Z.lor 0x80 (Z.land r 0x3F)]
  else if r <? 0x10000 then
    string_of_bytes [Z.lor 0xE0 (Z.shiftr r 12);
                     Z.lor 0x80 (Z.land (Z.shiftr r 6) 0x3F);
                     Z.lor 0x80 (Z.land r 0x3F)]
  else
    string_of_bytes [Z.lor 0xF0 (Z.shiftr r 18);
                     Z.lor 0x80 (Z.land (Z.shiftr r 12) 0x3F);
                     Z.lor 0x80 (Z.land (Z.shiftr r 6) 0x3F);
                     Z.lor 0x80 (Z.land r 0x3F)].

Definition ReplacementChar : Z := 0xFFFD.

(** The width of the well-formed UTF-8 sequence at the head of [s], as
    utf8.DecodeRune accepts it; [None] when the head byte starts none. *)
Definition rune_width (s : string) : option nat :=
  match s with
  | String b0 (String b1 r1) =>
      if in_range 0xC2 0xDF b0 then
        if isCont b1 then Some 2%nat else None
      else
        match r1 with
        | String b2 r2 =>
            let three :=
              (GoStrings.is_byte b0 0xE0 && in_range 0xA0 0xBF b1
               || (in_range 0xE1 0xEC b0 || in_range 0xEE 0xEF b0)
                  && isCont b1
               || GoStrings.is_byte b0 0xED && in_range 0x80 0x9F b1)
              && isCont b2 in
            if three then Some 3%nat
            else
              match r2 with
              | String b3 _ =>
                  let four :=
                    (GoStrings.is_byte b0 0xF0 && in_range 0x90 0xBF b1
                     || in_range 0xF1 0xF3 b0 && isCont b1
                     || GoStrings.is_byte b0 0xF4 && in_range 0x80 0x8F b1)
                    && isCont b2 && isCont b3 in
                  if four then Some 4%nat else None
              | EmptyString => None
              end
        | EmptyString => None
        end
  | _ => None
  end.

Fixpoint take (n : nat) (s : string) : string :=
  match n, s with
  | S n', String c r => String c (take n' r)
  | _, _ => EmptyString
  end.

Fixpoint drop (n : nat) (s : string) : string :=
  match n, s with
  | S n', String _ r => drop n' r
  | _, _ => s
  end.

(** getu4: the four hexadecimal digits after a backslash-u. *)
Definition getu4 (s : string) : option Z :=
  match s with
  | String h1 (String h2 (String h3 (String h4 _))) =>
      if URL.ishex h1 && URL.ishex h2 && URL.ishex h3 && URL.ishex h4 then
        Some (((URL.unhex h1 * 16 + URL.unhex h2) * 16 + URL.unhex h3) * 16
              + URL.unhex h4)
      else None
  | _ => None
  end.

Definition isSurrogate (r : Z) : bool := (0xD800 <=? r) && (r <? 0xE000).

(** utf16.DecodeRune *)
Definition DecodeSurrogates (r1 r2 : Z) : Z :=
  if (0xD800 <=? r1) && (r1 <? 0xDC00) && (0xDC00 <=? r2) && (r2 <? 0xE000)
  then Z.shiftl (r1 - 0xD800) 10 + (r2 - 0xDC00) + 0x10000
  else ReplacementChar.

(** The second half of a surrogate pair, when [s] starts with one. *)
Definition second_u4 (s : string) : option Z :=
  match s with
  | String c1 (String c2 r) =>
      if GoStrings.is_byte c1 92 && GoStrings.is_byte c2 117 then getu4 r
      else None
  | _ => None
  end.

(** The body of a string literal, after its opening quote: the decoded
    string and what follows the closing quote. *)
Fixpoint string_body (fuel : nat) (s : string) : option (string * string) :=
  match fuel with
  | O => None
  | S fuel' =>
      match s with
      | EmptyString => None
      | String c r =>
          if GoStrings.is_byte c 34 then Some (EmptyString, r)
          else if GoStrings.is_byte c 92 then
            match r with
            | EmptyString => None
            | String e r' =>
                let plain (b : Z) :=
                  '(t, rest) ← string_body fuel' r';
                  Some (String (ascii_of b) t, rest) in
                if GoStrings.is_byte e 34 then plain 34
                else if GoStrings.is_byte e 92 then plain 92
                else if GoStrings.is_byte e 47 then plain 47
                else if GoStrings.is_byte e 98 then plain 8
                else if GoStrings.is_byte e 102 then plain 12
                else if GoStrings.is_byte e 110 then plain 10
                else if GoStrings.is_byte e 114 then plain 13
                else if GoStrings.is_byte e 116 then plain 9
                else if GoStrings.is_byte e 117 then
                  match getu4 r' with
                  | None => None
                  | Some rr =>
                      let after := drop 4 r' in
                      if isSurrogate rr then
                        let dec :=
                          match second_u4 after with
                          | Some rr1 => DecodeSurrogates rr rr1
                          | None => ReplacementChar
                          end in
                        if dec =? ReplacementChar then
                          '(t, rest) ← string_body fuel' after;
                          Some (EncodeRune ReplacementChar +:+ t, rest)
                        else
                          '(t, rest) ← string_body fuel' (drop 6 after);
                          Some (EncodeRune dec +:+ t, rest)
                      else
                        '(t, rest) ← string_body fuel' after;
                        Some (EncodeRune rr +:+ t, rest)
                  end
                else None
            end
          else if byte_of c <? 32 then None
          else if byte_of c <? 128 then
            '(t, rest) ← string_body fuel' r;
            Some (String c t, rest)
          else
            match rune_width s with
            | Some w =>
                '(t, rest) ← string_body fuel' (drop w s);
                Some (take w s +:+ t, rest)
            | None =>
                '(t, rest) ← string_body fuel' r;
                Some (EncodeRune ReplacementChar +:+ t, rest)
            end
      end
  end.

Fixpoint span_digits (s : string) : string * string :=
  match s with
  | String c r =>
      if isDigit c then let '(d, rest) := span_digits r in (String c d, rest)
      else (EmptyString, s)
  | EmptyString => (EmptyString, EmptyString)
  end.

(** A number literal: an optional minus sign; a single 0 or digits not
    starting with 0; an optional fraction (a dot and digits); an
    optional exponent (e or E, an optional sign, digits). *)
Definition number (s : string) : option (string * string) :=
  let '(sign, s1) :=
    match s with
    | String c r => if GoStrings.is_byte c 45 then ("-", r) else (EmptyString, s)
    | EmptyString => (EmptyString, s)
    end in
  '(int, s2) ←
    match s1 with
    | String c r =>
        if GoStrings.is_byte c 48 then Some ("0", r)
        else if isDigit c then Some (span_digits s1)
        else None
    | EmptyString => None
    end;
  '(frac, s3) ←
    match s2 with
    | String c r =>
        if GoStrings.is_byte c 46 then
          match span_digits r with
          | (EmptyString, _) => None
          | (d, rest) => Some (String c d, rest)
          end
        else Some (EmptyString, s2)
    | EmptyString => Some (EmptyString, s2)
    end;
  '(exp, s4) ←
    match s3 with
    | String c r =>
        if GoStrings.is_byte c 101 || GoStrings.is_byte c 69 then
          let '(sg, r') :=
            match r with
            | String c' r'' =>
                if GoStrings.is_byte c' 43 || GoStrings.is_byte c' 45
                then (String c' EmptyString, r'') else (EmptyString, r)
            | EmptyString => (EmptyString, r)
            end in
          match span_digits r' with
          | (EmptyString, _) => None
          | (d, rest) => Some (String c (sg +:+ d), rest)
          end
        else Some (EmptyString, s3)
    | EmptyString => Some (EmptyString, s3)
    end;
  Some (sign +:+ int +:+ frac +:+ exp, s4).

Definition literal (word : string) (v : value) (s : string)
    : option (value * string) :=
  if GoStrings.HasPrefix s word then Some (v, drop (String.length word) s)
  else None.

(** One value at nesting depth [depth], after optional white space. *)
Fixpoint parse_value (fuel depth : nat) (s : string)
    : option (value * string) :=
  match fuel with
  | O => None
  | S fuel' =>
      match skip_ws s with
      | EmptyString => None
      | String c r as s' =>
          if GoStrings.is_byte c 91 then
            if (maxNestingDepth <? S depth)%nat then None else
            match skip_ws r with
            | String c' r' =>
                if GoStrings.is_byte c' 93 then Some (JArray [], r')
                else parse_elems fuel' (S depth) r []
            | EmptyString => None
            end
          else if GoStrings.is_byte c 123 then
            if (maxNestingDepth <? S depth)%nat then None else
            match skip_ws r with
            | String c' r' =>
                if GoStrings.is_byte c' 125 then Some (JObject [], r')
                else parse_members fuel' (S depth) r []
            | EmptyString => None
            end
          else if GoStrings.is_byte c 34 then
            '(str, rest) ← string_body (S (String.length r)) r;
            Some (JString str, rest)
          else if GoStrings.is_byte c 116 then literal "true" (JBool true) s'
          else if GoStrings.is_byte c 102 then literal "false" (JBool false) s'
          else if GoStrings.is_byte c 110 then literal "null" JNull s'
          else
            '(lit, rest) ← number s';
            Some (JNumber lit, rest)
      end
  end
with parse_elems (fuel depth : nat) (s : string) (acc : list value)
    : option (value * string) :=
  match fuel with
  | O => None
  | S fuel' =>
      '(v, rest) ← parse_value fuel' depth s;
      match skip_ws rest with
      | String c r =>
          if GoStrings.is_byte c 44 then parse_elems fuel' depth r (v :: acc)
          else if GoStrings.is_byte c 93 then
            Some (JArray (rev (v :: acc)), r)
          else None
      | EmptyString => None
      end
  end
with parse_members (fuel depth : nat) (s : string)
    (acc : list (string * value)) : option (value * string) :=
  match fuel with
  | O => None
  | S fuel' =>
      match skip_ws s with
      | String q r =>
          if GoStrings.is_byte q 34 then
            '(key, rest) ← string_body (S (String.length r)) r;
            match skip_ws rest with
            | String c r1 =>
                if GoStrings.is_byte c 58 then
                  '(v, rest') ← parse_value fuel' depth r1;
                  match skip_ws rest' with
                  | String c' r2 =>
                      if GoStrings.is_byte c' 44 then
                        parse_members fuel' depth r2 ((key, v) :: acc)
                      else if GoStrings.is_byte c' 125 then
                        Some (JObject (rev ((key, v) :: acc)), r2)
                      else None
                  | EmptyString => None
                  end
                else None
            | EmptyString => None
            end
          else None
      | EmptyString => None
      end
  end.

(** A whole document: one value and nothing but white space after it. *)
Definition parse (data : string) : option value :=
  '(v, rest) ← parse_value (2 * String.length data + 2) 0 data;
  match skip_ws rest with
  | EmptyString => Some v
  | _ => None
  end.

(** json.Unmarshal into a []string: an array whose elements are strings
    or null (null leaves the element empty); a top-level null leaves the
    slice nil. Everything else is an error. *)
Fixpoint string_elems (l : list value) : option (list string) :=
  match l with
  | [] => Some []
  | JString s :: l' => cons s <$> string_elems l'
  | JNull :: l' => cons EmptyString <$> string_elems l'
  | _ => None
  end.

Definition Unmarshal_strings (data : string) : option (list string) :=
  match parse data with
  | Some (JArray l) => string_elems l
  | Some JNull => Some []
  | _ => None
  end.

(** foldName on an object key, as far as it can reach an ASCII field
    name: ASCII letters to upper case, U+017F to S, U+212A to K. *)
Fixpoint foldName (s : string) : string :=
  match s with
  | EmptyString => EmptyString
  | String c r =>
      let b := byte_of c in
      if (97 <=? b) && (b <=? 122) then String (ascii_of (b - 32)) (foldName r)
      else
        match r with
        | String c2 r2 =>
            if GoStrings.is_byte c 0xC5 && GoStrings.is_byte c2 0xBF
            then String "S"%char (foldName r2)
            else
              match r2 with
              | String c3 r3 =>
                  if GoStrings.is_byte c 0xE2 && GoStrings.is_byte c2 0x84
                     && GoStrings.is_byte c3 0xAA
                  then String "K"%char (foldName r3)
                  else String c (foldName r)
              | EmptyString => String c (foldName r)
              end
        | EmptyString => String c (foldName r)
        end
  end.

End JSON.

(** Test inputs are written with apostrophes where JSON has double
    quotes; [dq] puts the double quotes in. *)
Fixpoint dq (s : string) : string :=
  match s with
  | EmptyString => EmptyString
  | String c r => String (if GoStrings.is_byte c 39 then ascii_of 34 else c) (dq r)
  end.

(** ** internal/telegram/initdata.go *)
Module Telegram.

Record User := mkUser {
  ID : Z;
  FirstName : string;
  LastName : string;
  Username : string;
  Language : string }.

Record AuthResult := mkAuthResult {
  AuthResult_User : User;
  AuthDate : GoTime.Time }.

(** Every error of [VerifyInitData] wraps ErrInvalidInitData ("invalid
    telegram init data"); the constructors are the texts added to it. *)
Inductive Error :=
  | ErrParseQuery (e : URL.QueryError)
  | ErrMissingHash
  | ErrSignatureMismatch
  | ErrMissingAuthDate
  | ErrInvalidAuthDate
  | ErrAuthDateExpired
  | ErrMissingUser
  | ErrInvalidUserJSON
  | ErrMissingUserID.

Definition zeroUser : User :=
  mkUser 0 EmptyString EmptyString EmptyString EmptyString.

Definition field_is (key name : string) : bool :=
  String.eqb (JSON.foldName key) (JSON.foldName name).

(** An int64 field takes an integer literal in range, a string field a
    string; null leaves the field as it is; anything else is an
    UnmarshalTypeError. *)
Definition int64_field (cur : Z) (v : JSON.value) : option Z :=
  match v with
  | JSON.JNull => Some cur
  | JSON.JNumber lit => Strconv.ParseInt lit
  | _ => None
  end.

Definition string_field (cur : string) (v : JSON.value) : option string :=
  match v with
  | JSON.JNull => Some cur
  | JSON.JString s => Some s
  | _ => None
  end.

Definition set_member (u : User) (key : string) (v : JSON.value)
    : option User :=
  if field_is key "id" then
    n ← int64_field (ID u) v;
    Some (mkUser n (FirstName u) (LastName u) (Username u) (Language u))
  else if field_is key "first_name" then
    s ← string_field (FirstName u) v;
    Some (mkUser (ID u) s (LastName u) (Username u) (Language u))
  else if field_is key "last_name" then
    s ← string_field (LastName u) v;
    Some (mkUser (ID u) (FirstName u) s (Username u) (Language u))
  else if field_is key "username" then
    s ← string_field (Username u) v;
    Some (mkUser (ID u) (FirstName u) (LastName u) s (Language u))
  else if field_is key "language_code" then
    s ← string_field (Language u) v;
    Some (mkUser (ID u) (FirstName u) (LastName u) (Username u) s)
  else Some u.

Fixpoint set_members (u : User) (ms : list (string * JSON.value))
    : option User :=
  match ms with
  | [] => Some u
  | (key, v) :: ms' => u' ← set_member u key v; set_members u' ms'
  end.

(** json.Unmarshal([]byte(userRaw), &user) on a zero [User]; [None] is
    any error (syntax or type). *)
Definition Unmarshal_User (data : string) : option User :=
  match JSON.parse data with
  | Some (JSON.JObject ms) => set_members zeroUser ms
  | Some JSON.JNull => Some zeroUser
  | _ => None
  end.

Definition newline : string := String (ascii_of 10) EmptyString.

(** The loop over the keys of [values]: one "k=v" string per key other
    than hash, with the first value of the key. *)
Definition pairs (values : URL.Values) (keys : list string) : list string :=
  (fun k => k +:+ "=" +:+ URL.Get values k)
    <$> filter (fun k => k ≠ "hash") keys.

(** sort.Strings(pairs); strings.Join(pairs, "\n"). The keys are taken
    in the order of [map_to_list]; [dataCheckString_any_order] below
    shows that no other iteration order changes the result. *)
Definition dataCheckString (values : URL.Values) : string :=
  GoStrings.Join
    (merge_sort String.le (pairs values (map_to_list values).*1)) newline.

(** The hexadecimal HMAC-SHA256 of the data-check string under the key
    SHA-256(botToken). *)
Definition expected (botToken : string) (values : URL.Values) : string :=
  let secret := SHA256.Sum256 (bytes_of_string botToken) in
  Hex.EncodeToString
    (HMAC.Sum secret (bytes_of_string (dataCheckString values))).

(** [now] is the reading of the clock that time.Since takes. *)
Definition VerifyInitData (now : GoTime.Time) (initData botToken : string)
    (maxAge : Z) : Error + AuthResult :=
  match URL.ParseQuery initData with
  | (_, Some e) => inl (ErrParseQuery e)
  | (values, None) =>
      let hash := URL.Get values "hash" in
      if String.eqb hash EmptyString then inl ErrMissingHash else
      if negb (String.eqb (GoStrings.ToLower hash)
                          (GoStrings.ToLower (expected botToken values)))
      then inl ErrSignatureMismatch else
      let authDateRaw := URL.Get values "auth_date" in
      if String.eqb authDateRaw EmptyString then inl ErrMissingAuthDate else
      match Strconv.ParseInt authDateRaw with
      | None => inl ErrInvalidAuthDate
      | Some sec =>
          let authDate := GoTime.Unix sec in
          if (0 <? maxAge) && (maxAge <? GoTime.Since now authDate)
          then inl ErrAuthDateExpired else
          let userRaw := URL.Get values "user" in
          if String.eqb userRaw EmptyString then inl ErrMissingUser else
          match Unmarshal_User userRaw with
          | None => inl ErrInvalidUserJSON
          | Some user =>
              if ID user =? 0 then inl ErrMissingUserID
              else inr (mkAuthResult user authDate)
          end
      end
  end.

End Telegram.

(** ** internal/transport/http/telegram_middleware.go *)
Module HTTPTransport.

(** What the handler leaves in the ResponseWriter. *)
Record Response := mkResponse {
  StatusCode : Z;
  ContentType : string;
  Body : string }.

Definition StatusUnauthorized : Z := 401.

(** http.Error: a plain-text reply, the message and a line feed. *)
Definition http_Error (msg : string) (code : Z) : Response :=
  mkResponse code "text/plain; charset=utf-8" (msg +:+ Telegram.newline).

(** The part of the request the middleware reads. *)
Record Request := mkRequest { Header : gmap string (list string) }.

Record TelegramAuthMiddleware := mkMiddleware {
  BotToken : string;
  MaxAge : Z }.

(** The handler either answers itself or calls next.ServeHTTP with the
    verified identity in the request context. *)
Inductive Outcome :=
  | Answered (resp : Response)
  | ServeNext (auth : Telegram.AuthResult).

(** r.Header.Get("X-Telegram-Init-Data") *)
Definition initDataOf (r : Request) : string :=
  URL.Get (Header r) "X-Telegram-Init-Data".

Definition Wrap (m : TelegramAuthMiddleware) (now : GoTime.Time)
    (r : Request) : Outcome :=
  let initData := initDataOf r in
  if String.eqb initData EmptyString then
    Answered (http_Error "missing X-Telegram-Init-Data" StatusUnauthorized)
  else
    match Telegram.VerifyInitData now initData (BotToken m) (MaxAge m) with
    | inl _ =>
        Answered (http_Error "invalid telegram init data" StatusUnauthorized)
    | inr auth => ServeNext auth
    end.

End HTTPTransport.

(** ** fmt: the verb %f on a float64 *)
Module Fmt.

Definition zeros6 : Z := 1000000.

(** Round the quotient [num / den] to the nearest integer, ties to the
    even one. *)
Definition round_half_even (num den : Z) : Z :=
  let q := num / den in
  let r := num mod den in
  if (den <? 2 * r) || ((2 * r =? den) && Z.odd q) then q + 1 else q.

(** Six digits, zero-padded on the left. *)
Definition six_digits (n : Z) : string :=
  match Strconv.FormatInt (zeros6 + n) with
  | String _ r => r
  | EmptyString => EmptyString
  end.

Definition fixed6 (negative : bool) (n : Z) : string :=
  (if negative then "-" else EmptyString)
  +:+ Strconv.FormatInt (n / zeros6) +:+ "." +:+ six_digits (n mod zeros6).

(** fmt.Sprintf("%f", x): six digits after the point, the exact binary
    value rounded to nearest even. *)
Definition Sprintf_f (x : float) : string :=
  match Prim2SF x with
  | S754_nan => "NaN"
  | S754_infinity false => "+Inf"
  | S754_infinity true => "-Inf"
  | S754_zero s => fixed6 s 0
  | S754_finite s m e =>
      let num := Z.pos m * zeros6 in
      fixed6 s (if 0 <=? e then num * 2 ^ e
                else round_half_even num (2 ^ (- e)))
  end.

End Fmt.

(** ** internal/saleor/client.go: the typed boundary of [Client.Do]

    A call of [Do] sends one operation with its variables and comes back
    with an error (transport failure, non-2xx status, a GraphQL error, a
    decoding failure) or with the decoded data. Code that calls [Do] is a
    program over such calls: [Ret] returns, [Do] performs one call and
    continues with its outcome. The external system is whatever answers
    the calls ([Handler]); [run] executes a program against it and records
    the calls made. *)
Module Saleor.

(** A Go error, as its message. *)
Definition error : Type := string.

Section Client.
Context {Op : Type → Type}.

Inductive Prog (A : Type) : Type :=
  | Ret (a : A)
  | Do {R : Type} (op : Op R) (k : error + R → Prog A).

Fixpoint bind {A B : Type} (p : Prog A) (f : A → Prog B) : Prog B :=
  match p with
  | Ret _ a => f a
  | Do _ op k => Do _ op (fun r => bind (k r) f)
  end.

Definition Call : Type := { R : Type & Op R }.

Definition Handler (W : Type) : Type :=
  ∀ R : Type, Op R → W → (error + R) * W.

(** The result, the calls made in order, and the final state of the
    external system. *)
Fixpoint run {W A : Type} (h : Handler W) (p : Prog A) (w : W)
    : A * list Call * W :=
  match p with
  | Ret _ a => (a, [], w)
  | Do _ op k =>
      let '(r, w') := h _ op w in
      let '(a, calls, w'') := run h (k r) w' in
      (a, existT _ op :: calls, w'')
  end.

End Client.

Arguments Prog Op A : clear implicits.
Arguments Ret {Op A} a.
Arguments Do {Op A R} op k.
Arguments Call Op : clear implicits.
Arguments Handler Op W : clear implicits.

End Saleor.

(** ** internal/app/tma/service.go

    The repository holds the service twice: the older service.go with
    every function written inline, and the refactored text (found after
    the client in internal/saleor/client.go) with validatePlaceOrderInput,
    buildOrderMetadata, createDraftOrder, addOrderLines and
    completeDraftOrder split out. The catalog functions are the same in
    both. [PlaceOrder] follows the refactored text and [PlaceOrder_inline]
    the older one; [PlaceOrder_inline_agrees] relates them. *)
Module TMA.
Import Saleor.

(** *** Domain types *)

Record Money := mkMoney { Amount : float; Currency : string }.

Record Restaurant := mkRestaurant {
  Restaurant_ID : string;
  Restaurant_Name : string;
  Restaurant_Description : string;
  Restaurant_ImageURL : string;
  Tags : list string }.

Record Dish := mkDish {
  Dish_ID : string;
  ProductID : string;
  Dish_RestaurantID : string;
  CategoryID : string;
  Dish_Name : string;
  Dish_Description : string;
  Dish_ImageURL : string;
  Price : Money }.

Record CartItem := mkCartItem { DishID : string; Quantity : Z }.

Record DeliveryLocation := mkDeliveryLocation { Lat : float; Lng : float }.

Record PlaceOrderInput := mkPlaceOrderInput {
  RestaurantID : string;
  Items : list CartItem;
  DeliveryLocation_ : option DeliveryLocation;
  GoogleMapsURL : string;
  Comment : string }.

Record PlaceOrderResult := mkPlaceOrderResult {
  OrderID : string;
  Status : string }.

(** *** Saleor response types *)

Record saleorImage := mkImage { URL : string }.

Record saleorMeta := mkMeta { Key : string; Value : string }.

Record saleorRestaurantNode := mkRestaurantNode {
  rn_ID : string;
  rn_Name : string;
  rn_Description : string;
  rn_BackgroundImage : option saleorImage;
  rn_Metadata : list saleorMeta }.

Record variantPrice := mkVariantPrice { Gross : Money }.
Record variantPricing := mkVariantPricing { Pricing_Price : option variantPrice }.

Record saleorVariant := mkVariant {
  Variant_ID : string;
  Pricing : option variantPricing }.

Record saleorProductNode := mkProductNode {
  pn_ID : string;
  pn_Name : string;
  pn_Description : string;
  Thumbnail : option saleorImage;
  Variants : list saleorVariant }.

(** category(id) { parent { id } }: the category, when found, and its
    parent id, when it has one. *)
Record categoryParent := mkCategoryParent { Parent : option string }.

Record orderRef := mkOrderRef { Order_ID : string; Order_Status : string }.

Record mutationError := mkMutationError { Message : string }.

(** The payload of the three order mutations: the order, or null, and
    the reported errors. *)
Record mutationPayload := mkMutationPayload {
  Order : option orderRef;
  Errors : list mutationError }.

(** *** Variables of the mutations *)

Record metadataItem := mkMetadataItem { meta_key : string; meta_value : string }.

Record DraftOrderCreateInput := mkDraftOrderCreateInput {
  channelId : string;
  userEmail : string;
  customerNote : string;
  metadata : list metadataItem }.

Record OrderLineCreateInput := mkOrderLine {
  variantId : string;
  quantity : Z }.

(** The operations sent through [Do], each with the type its data is
    decoded to. The edges of a connection are given as the list of their
    nodes. *)
Inductive Op : Type → Type :=
  | RestaurantsFromRoot (id : string)
      : Op (option (list saleorRestaurantNode))
  | RestaurantsTopLevel (first level : Z) (filter : option string)
      : Op (list saleorRestaurantNode)
  | CategoryParent (id : string) : Op (option categoryParent)
  | CategoryDishes (first : Z) (channel : string) (categoryId : list string)
      : Op (list saleorProductNode)
  | CreateDraft (input : DraftOrderCreateInput) : Op mutationPayload
  | AddLines (id : string) (input : list OrderLineCreateInput)
      : Op mutationPayload
  | CompleteDraft (id : string) : Op mutationPayload.

Record Service := mkService {
  channelID : string;
  channelSlug : string;
  restaurantRootCategoryID : string }.

(** The Go idiom "if err != nil { return zero, err }". *)
Definition andThen {A B : Type} (p : Prog Op (error + A))
    (f : A → Prog Op (error + B)) : Prog Op (error + B) :=
  bind p (fun r => match r with
                   | inl err => Ret (inl err)
                   | inr a => f a
                   end).

(** *** ListRestaurants *)

Fixpoint trimmed_nonempty (parts : list string) (out : list string)
    : list string :=
  match parts with
  | [] => out
  | p :: parts' =>
      let p := GoStrings.TrimSpace p in
      if String.eqb p EmptyString then trimmed_nonempty parts' out
      else trimmed_nonempty parts' (out ++ [p])
  end.

(** parseTagsFromMetadata: the first tma_tags entry decides. *)
Fixpoint parseTagsFromMetadata (meta : list saleorMeta) : list string :=
  match meta with
  | [] => []
  | m :: meta' =>
      if negb (String.eqb (Key m) "tma_tags") then parseTagsFromMetadata meta'
      else
        let v := GoStrings.TrimSpace (Value m) in
        if String.eqb v EmptyString then []
        else
          match (if GoStrings.HasPrefix v "["
                 then JSON.Unmarshal_strings v else None) with
          | Some arr => arr
          | None => trimmed_nonempty (GoStrings.Split v ","%char) []
          end
  end.

Definition imageURL (img : option saleorImage) : string :=
  match img with
  | Some i => URL i
  | None => EmptyString
  end.

Fixpoint mapRestaurants_loop (nodes : list saleorRestaurantNode)
    (out : list Restaurant) : list Restaurant :=
  match nodes with
  | [] => out
  | n :: nodes' =>
      mapRestaurants_loop nodes'
        (out ++ [mkRestaurant (rn_ID n) (rn_Name n) (rn_Description n)
                   (imageURL (rn_BackgroundImage n))
                   (parseTagsFromMetadata (rn_Metadata n))])
  end.

Definition mapRestaurants (nodes : list saleorRestaurantNode)
    : list Restaurant :=
  mapRestaurants_loop nodes [].

Definition listRestaurantsFromRoot (s : Service) (rootID : string)
    : Prog Op (error + list Restaurant) :=
  Do (RestaurantsFromRoot rootID) (fun r =>
    match r with
    | inl err => Ret (inl err)
    | inr None => Ret (inl "root category not found")
    | inr (Some nodes) => Ret (inr (mapRestaurants nodes))
    end).

Definition listRestaurantsTopLevel (s : Service) (search : string)
    : Prog Op (error + list Restaurant) :=
  let filter :=
    if negb (String.eqb (GoStrings.TrimSpace search) EmptyString)
    then Some search else None in
  Do (RestaurantsTopLevel 100 0 filter) (fun r =>
    match r with
    | inl err => Ret (inl err)
    | inr nodes => Ret (inr (mapRestaurants nodes))
    end).

Definition ListRestaurants (s : Service) (search : string)
    : Prog Op (error + list Restaurant) :=
  if negb (String.eqb (restaurantRootCategoryID s) EmptyString)
  then listRestaurantsFromRoot s (restaurantRootCategoryID s)
  else listRestaurantsTopLevel s search.

(** *** ListDishes *)

Definition categoryIsChildOf (s : Service) (categoryID expectedParentID : string)
    : Prog Op (error + bool) :=
  Do (CategoryParent categoryID) (fun r =>
    match r with
    | inl err => Ret (inl err)
    | inr None => Ret (inr false)
    | inr (Some c) =>
        match Parent c with
        | None => Ret (inr false)
        | Some id => Ret (inr (String.eqb id expectedParentID))
        end
    end).

Definition variantMoney (v : saleorVariant) : Money :=
  match Pricing v with
  | Some pr =>
      match Pricing_Price pr with
      | Some p => mkMoney (Amount (Gross p)) (Currency (Gross p))
      | None => mkMoney 0%float EmptyString
      end
  | None => mkMoney 0%float EmptyString
  end.

Fixpoint dishes_loop (restaurantID categoryID : string)
    (nodes : list saleorProductNode) (out : list Dish) : list Dish :=
  match nodes with
  | [] => out
  | n :: nodes' =>
      match Variants n with
      | [] => dishes_loop restaurantID categoryID nodes' out
      | v :: _ =>
          dishes_loop restaurantID categoryID nodes'
            (out ++ [mkDish (Variant_ID v) (pn_ID n) restaurantID categoryID
                       (pn_Name n) (pn_Description n)
                       (imageURL (Thumbnail n)) (variantMoney v)])
      end
  end.

Definition ListDishes (s : Service) (restaurantID categoryID : string)
    : Prog Op (error + list Dish) :=
  andThen (categoryIsChildOf s categoryID restaurantID) (fun ok =>
    if negb ok then Ret (inl "category does not belong to restaurant")
    else
      Do (CategoryDishes 100 (channelSlug s) [categoryID]) (fun r =>
        match r with
        | inl err => Ret (inl err)
        | inr nodes => Ret (inr (dishes_loop restaurantID categoryID nodes []))
        end)).

(** *** PlaceOrder *)

(** validatePlaceOrderInput; [None] is the nil error. *)
Definition validatePlaceOrderInput (input : PlaceOrderInput) : option error :=
  if String.eqb (RestaurantID input) EmptyString then
    Some "restaurantId is required"
  else if (length (Items input) =? 0)%nat then
    Some "items must not be empty"
  else
    let hasCoords :=
      match DeliveryLocation_ input with Some _ => true | None => false end in
    let hasMapsURL :=
      negb (String.eqb (GoStrings.TrimSpace (GoogleMapsURL input)) EmptyString) in
    if Bool.eqb hasCoords hasMapsURL then
      Some "provide exactly one of deliveryLocation or googleMapsUrl"
    else None.

(** The two delivery fields, as the validation reads them: the
    coordinates are set when the pointer is not nil, the maps link when
    it is not blank. *)
Definition coordsSet (input : PlaceOrderInput) : Prop :=
  DeliveryLocation_ input ≠ None.
Definition mapsLinkSet (input : PlaceOrderInput) : Prop :=
  GoStrings.TrimSpace (GoogleMapsURL input) ≠ EmptyString.

Definition buildOrderMetadata (telegramUserID : Z) (input : PlaceOrderInput)
    : list metadataItem :=
  let meta :=
    [ mkMetadataItem "tma.telegramUserId" (Strconv.FormatInt telegramUserID);
      mkMetadataItem "tma.restaurantId" (RestaurantID input) ] in
  match DeliveryLocation_ input with
  | Some loc =>
      meta ++ [ mkMetadataItem "tma.delivery.lat" (Fmt.Sprintf_f (Lat loc));
                mkMetadataItem "tma.delivery.lng" (Fmt.Sprintf_f (Lng loc)) ]
  | None =>
      meta ++ [ mkMetadataItem "tma.delivery.googleMapsUrl"
                  (GoogleMapsURL input) ]
  end.

Definition firstMessage (errs : list mutationError) : option string :=
  match errs with
  | e :: _ => Some (Message e)
  | [] => None
  end.

(** The "input" variable of the CreateDraft mutation. *)
Definition createDraftVars (s : Service) (telegramUserID : Z)
    (input : PlaceOrderInput) : DraftOrderCreateInput :=
  let meta := buildOrderMetadata telegramUserID input in
  mkDraftOrderCreateInput (channelID s)
    ("tg-" +:+ Strconv.FormatInt telegramUserID +:+ "@tma.local")
    (Comment input) meta.

Definition createDraftOrder (s : Service) (telegramUserID : Z)
    (input : PlaceOrderInput) : Prog Op (error + string) :=
  Do (CreateDraft (createDraftVars s telegramUserID input)) (fun r =>
    match r with
    | inl err => Ret (inl err)
    | inr resp =>
        match Order resp with
        | None =>
            match firstMessage (Errors resp) with
            | Some msg => Ret (inl ("saleor draftOrderCreate: " +:+ msg))
            | None => Ret (inl "saleor draftOrderCreate: no order returned")
            end
        | Some o => Ret (inr (Order_ID o))
        end
    end).

Definition lineOf (it : CartItem) : OrderLineCreateInput :=
  mkOrderLine (DishID it) (Quantity it).

(** The loop of addOrderLines: it stops with an error at the first item
    whose quantity is not positive. *)
Fixpoint orderLines (items : list CartItem) (lines : list OrderLineCreateInput)
    : error + list OrderLineCreateInput :=
  match items with
  | [] => inr lines
  | it :: items' =>
      if Quantity it <=? 0 then inl "item quantity must be >= 1"
      else orderLines items' (lines ++ [lineOf it])
  end.

(** addOrderLines; [None] is the nil error. *)
Definition addOrderLines (s : Service) (orderID : string)
    (items : list CartItem) : Prog Op (option error) :=
  match orderLines items [] with
  | inl err => Ret (Some err)
  | inr lines =>
      Do (AddLines orderID lines) (fun r =>
        match r with
        | inl err => Ret (Some err)
        | inr resp =>
            match Order resp, firstMessage (Errors resp) with
            | None, Some msg =>
                Ret (Some ("saleor orderLinesCreate: " +:+ msg))
            | _, _ => Ret None
            end
        end)
  end.

Definition completeDraftOrder (s : Service) (orderID : string)
    : Prog Op (error + PlaceOrderResult) :=
  Do (CompleteDraft orderID) (fun r =>
    match r with
    | inl err => Ret (inl err)
    | inr resp =>
        match Order resp with
        | None =>
            match firstMessage (Errors resp) with
            | Some msg => Ret (inl ("saleor draftOrderComplete: " +:+ msg))
            | None => Ret (inl "saleor draftOrderComplete: no order returned")
            end
        | Some o => Ret (inr (mkPlaceOrderResult (Order_ID o) (Order_Status o)))
        end
    end).

Definition PlaceOrder (s : Service) (telegramUserID : Z)
    (input : PlaceOrderInput) : Prog Op (error + PlaceOrderResult) :=
  match validatePlaceOrderInput input with
  | Some err => Ret (inl err)
  | None =>
      andThen (createDraftOrder s telegramUserID input) (fun orderID =>
        bind (addOrderLines s orderID (Items input)) (fun err =>
          match err with
          | Some err => Ret (inl err)
          | None => completeDraftOrder s orderID
          end))
  end.

(** PlaceOrder as the older service.go has it, in one function body: the
    same checks and calls written inline, with its own text for the two
    "no order and no error" failures. *)
Definition PlaceOrder_inline (s : Service) (telegramUserID : Z)
    (input : PlaceOrderInput) : Prog Op (error + PlaceOrderResult) :=
  if String.eqb (RestaurantID input) EmptyString then
    Ret (inl "restaurantId is required")
  else if (length (Items input) =? 0)%nat then
    Ret (inl "items must not be empty")
  else if Bool.eqb
            (match DeliveryLocation_ input with None => true | Some _ => false end)
            (String.eqb (GoStrings.TrimSpace (GoogleMapsURL input)) EmptyString)
  then Ret (inl "provide exactly one of deliveryLocation or googleMapsUrl")
  else
    let userEmail :=
      "tg-" +:+ Strconv.FormatInt telegramUserID +:+ "@tma.local" in
    let meta :=
      [ mkMetadataItem "tma.telegramUserId" (Strconv.FormatInt telegramUserID);
        mkMetadataItem "tma.restaurantId" (RestaurantID input) ]
      ++ match DeliveryLocation_ input with
         | Some loc =>
             [ mkMetadataItem "tma.delivery.lat" (Fmt.Sprintf_f (Lat loc));
               mkMetadataItem "tma.delivery.lng" (Fmt.Sprintf_f (Lng loc)) ]
         | None =>
             [ mkMetadataItem "tma.delivery.googleMapsUrl"
                 (GoogleMapsURL input) ]
         end in
    Do (CreateDraft
          (mkDraftOrderCreateInput (channelID s) userEmail (Comment input) meta))
       (fun r =>
    match r with
    | inl err => Ret (inl err)
    | inr createResp =>
    match Order createResp with
    | None =>
        match firstMessage (Errors createResp) with
        | Some msg => Ret (inl ("saleor draftOrderCreate: " +:+ msg))
        | None => Ret (inl "saleor draftOrderCreate failed")
        end
    | Some o =>
    let orderID := Order_ID o in
    match orderLines (Items input) [] with
    | inl err => Ret (inl err)
    | inr lines =>
    Do (AddLines orderID lines) (fun r =>
    match r with
    | inl err => Ret (inl err)
    | inr linesResp =>
    match Order linesResp, firstMessage (Errors linesResp) with
    | None, Some msg => Ret (inl ("saleor orderLinesCreate: " +:+ msg))
    | _, _ =>
    Do (CompleteDraft orderID) (fun r =>
    match r with
    | inl err => Ret (inl err)
    | inr completeResp =>
    match Order completeResp with
    | None =>
        match firstMessage (Errors completeResp) with
        | Some msg => Ret (inl ("saleor draftOrderComplete: " +:+ msg))
        | None => Ret (inl "saleor draftOrderComplete failed")
        end
    | Some o' => Ret (inr (mkPlaceOrderResult (Order_ID o') (Order_Status o')))
    end
    end)
    end
    end)
    end
    end
    end).

End TMA.

(** ** internal/telegram/initdata_test.go: buildInitData, the signer of
    the repository

    The fields are a Go map from key to value. *)
Module Signer.

(** The loop over [fields]: one "k=v" string per key other than hash. *)
Definition pairs (fields : gmap string string) : list string :=
  (fun kv => kv.1 +:+ "=" +:+ kv.2)
    <$> filter (fun kv => kv.1 ≠ "hash") (map_to_list fields).

(** sort.Strings(pairs); strings.Join(pairs, "\n") *)
Definition dataCheckString (fields : gmap string string) : string :=
  GoStrings.Join (merge_sort String.le (pairs fields)) Telegram.newline.

(** The hexadecimal HMAC-SHA256 of the data-check string under the key
    SHA-256(botToken). *)
Definition hash (botToken : string) (fields : gmap string string) : string :=
  Hex.EncodeToString
    (HMAC.Sum (SHA256.Sum256 (bytes_of_string botToken))
              (bytes_of_string (dataCheckString fields))).

(** The url.Values the signer encodes: every field set once, then the
    hash set. The payload is values.Encode(), a query string that parses
    to these values. *)
Definition valuesOf (fields : gmap string string) (hash : string)
    : URL.Values :=
  (fun v => [v]) <$> <["hash" := hash]> fields.

End Signer.

(** ** The signing algorithm in the words of the specification

    The hash field removed, the remaining keys sorted lexicographically,
    the key=value pairs joined with newlines, HMAC-SHA256 keyed by
    SHA-256(secret). *)
Module CanonicalSigning.

Definition canonical (fields : gmap string string) : string :=
  let keys :=
    merge_sort String.le
      (filter (fun k => k ≠ "hash") (map_to_list fields).*1) in
  GoStrings.Join
    ((fun k => k +:+ "=" +:+ default EmptyString (fields !! k)) <$> keys)
    Telegram.newline.

Definition sign (secret : string) (fields : gmap string string) : string :=
  Hex.EncodeToString
    (HMAC.Sum (SHA256.Sum256 (bytes_of_string secret))
              (bytes_of_string (canonical fields))).

(** No key of [fields] is continued to a longer key of [fields] by a byte
    that is not above the equals sign (61). *)
Definition separable (fields : gmap string string) : Prop :=
  ∀ k1 k2 c rest,
    is_Some (fields !! k1) → is_Some (fields !! k2) →
    k2 = k1 +:+ String c rest → 61 < byte_of c.

End CanonicalSigning.

(** ** Payloads used in the examples *)
Module Fixtures.

(** testBotToken of initdata_test.go *)
Definition testBotToken : string :=
  "1234567890:AABBCCDDEEFFaabbccddeeff-TestBotToken".

(** A query string followed by the signature the verifier computes for
    it, as buildInitData of initdata_test.go does. *)
Definition signed (botToken body : string) : string :=
  body +:+ "&hash=" +:+ Telegram.expected botToken (URL.ParseQuery body).1.




Definition plainBody : string :=
  "auth_date=1700000000&user=%7B%22id%22%3A42%2C%22first_name%22%3A%22Test%22%7D&chat_instance=-1234567890".

(** The fields of [plainBody]. *)
Definition plainFields : gmap string string :=
  {[ "auth_date" := "1700000000";
     "user" := dq "{'id':42,'first_name':'Test'}";
     "chat_instance" := "-1234567890" ]}.

Definition plainUser : Telegram.User :=
  Telegram.mkUser 42 "Test" EmptyString EmptyString EmptyString.

(** 2023-11-14 22:13:20 UTC, the auth_date of the payloads above. *)
Definition authInstant : GoTime.Time := GoTime.Unix 1700000000.

(** Eleven minutes later. *)
Definition elevenMinutesLater : GoTime.Time := GoTime.Unix 1700000660.

Definition request (initData : string) : HTTPTransport.Request :=
  HTTPTransport.mkRequest {[ "X-Telegram-Init-Data" := [initData] ]}.

Definition middleware : HTTPTransport.TelegramAuthMiddleware :=
  HTTPTransport.mkMiddleware testBotToken (10 * GoTime.Minute).

(** The service and the canned Saleor answers of service_test.go. *)
Definition service : TMA.Service :=
  TMA.mkService "channel-id-1" "default-channel" "root-cat-id".

Definition restaurantNode : TMA.saleorRestaurantNode :=
  TMA.mkRestaurantNode "rest-1" "Pizza Palace" "Best pizza in town"
    (Some (TMA.mkImage "https://cdn.example.com/pizza.jpg"))
    [TMA.mkMeta "tma_tags" "pizza,italian,delivery"].

Definition productNode : TMA.saleorProductNode :=
  TMA.mkProductNode "prod-1" "Margherita" "Classic tomato and mozzarella"
    (Some (TMA.mkImage "https://cdn.example.com/margherita.jpg"))
    [TMA.mkVariant "var-1"
       (Some (TMA.mkVariantPricing
                (Some (TMA.mkVariantPrice (TMA.mkMoney 12.5%float "USD")))))].

Definition draftOrderCreateResp : TMA.mutationPayload :=
  TMA.mkMutationPayload (Some (TMA.mkOrderRef "order-99" "DRAFT")) [].

Definition orderLinesCreateResp : TMA.mutationPayload :=
  TMA.mkMutationPayload (Some (TMA.mkOrderRef "order-99" EmptyString)) [].

Definition draftOrderCompleteResp : TMA.mutationPayload :=
  TMA.mkMutationPayload (Some (TMA.mkOrderRef "order-99" "UNFULFILLED")) [].

(** A Saleor that answers every operation with its canned payload, the
    line submission with [lines], and counts the calls it receives. *)
Definition cannedSaleor (lines : TMA.mutationPayload)
    : Saleor.Handler TMA.Op nat :=
  fun R op n =>
    (match op in TMA.Op R return Saleor.error + R with
     | TMA.RestaurantsFromRoot _ => inr (Some [restaurantNode])
     | TMA.RestaurantsTopLevel _ _ _ => inr [restaurantNode]
     | TMA.CategoryParent _ => inr (Some (TMA.mkCategoryParent (Some "rest-1")))
     | TMA.CategoryDishes _ _ _ => inr [productNode]
     | TMA.CreateDraft _ => inr draftOrderCreateResp
     | TMA.AddLines _ _ => inr lines
     | TMA.CompleteDraft _ => inr draftOrderCompleteResp
     end, S n).

Definition mapsURL : string := "https://maps.google.com/?q=1,2".


Definition coordinatesInput : TMA.PlaceOrderInput :=
  TMA.mkPlaceOrderInput "rest-1" [TMA.mkCartItem "var-1" 2]
    (Some (TMA.mkDeliveryLocation 55.75%float 37.62%float)) EmptyString
    "Ring the bell".

Definition mapsInput : TMA.PlaceOrderInput :=
  TMA.mkPlaceOrderInput "rest-1" [TMA.mkCartItem "var-1" 1] None mapsURL
    EmptyString.


(** A line submission answered with an order and an error together. *)
Definition orderWithErrorsResp : TMA.mutationPayload :=
  TMA.mkMutationPayload (Some (TMA.mkOrderRef "order-99" EmptyString))
    [TMA.mkMutationError "variant not available in channel"].

(** The answer of TestPlaceOrder_AddLinesSaleorError. *)
Definition errLinesResp : TMA.mutationPayload :=
  TMA.mkMutationPayload None
    [TMA.mkMutationError "variant not available in channel"].

End Fixtures.

(** * Properties *)

(** ** The standard-library models on known values *)

Example sha256_abc :
  Hex.EncodeToString (SHA256.Sum256 (bytes_of_string "abc")) =
  "ba7816bf8f01cfea414140de5dae2223b00361a396177a9cb410ff61f20015ad".
Proof. vm_compute. reflexivity. Qed.

Example sha256_empty :
  Hex.EncodeToString (SHA256.Sum256 []) =
  "e3b0c44298fc1c149afbf4c8996fb92427ae41e4649b934ca495991b7852b855".
Proof. vm_compute. reflexivity. Qed.

Example sha256_two_blocks :
  Hex.EncodeToString (SHA256.Sum256 (bytes_of_string
    "abcdbcdecdefdefgefghfghighijhijkijkljklmklmnlmnomnopnopq")) =
  "248d6a61d20638b8e5c026930c3e6039a33ce45964ff2167f6ecedd419db06c1".
Proof. vm_compute. reflexivity. Qed.

(** RFC 4231, test case 2. *)
Example hmac_rfc4231_2 :
  Hex.EncodeToString (HMAC.Sum (bytes_of_string "Jefe")
    (bytes_of_string "what do ya want for nothing?")) =
  "5bdcc146bf60754e6a042426089575c75a003f089d2739839dec58b964ec3843".
Proof. vm_compute. reflexivity. Qed.

Example trim_space_1 :
  GoStrings.TrimSpace "  a b	
" = "a b".
Proof. reflexivity. Qed.

Example split_1 : GoStrings.Split "a,,b," ","%char = ["a"; EmptyString; "b"; EmptyString].
Proof. reflexivity. Qed.

Example parse_int_1 :
  Strconv.ParseInt "-9223372036854775808" = Some (- 2 ^ 63)
  /\ Strconv.ParseInt "9223372036854775808" = None
  /\ Strconv.ParseInt "+12" = Some 12
  /\ Strconv.ParseInt "1_2" = None
  /\ Strconv.ParseInt "-" = None.
Proof. vm_compute. auto. Qed.

Example format_int_1 :
  Strconv.FormatInt (-42) = "-42" /\ Strconv.FormatInt 0 = "0"
  /\ Strconv.FormatInt 1234567890123 = "1234567890123".
Proof. vm_compute. auto. Qed.

Example parse_query_1 :
  URL.Get (URL.ParseQuery "a=1&b=x%20y+z&a=2").1 "a" = "1"
  /\ URL.Get (URL.ParseQuery "a=1&b=x%20y+z&a=2").1 "b" = "x y z"
  /\ (URL.ParseQuery "a=1&b=x%20y+z&a=2").2 = None
  /\ (URL.ParseQuery "a=%zz").2 = Some URL.EscapeError.
Proof. vm_compute. auto. Qed.

Example json_strings_1 :
  JSON.Unmarshal_strings (dq "['a', 'b\n\u00e9' , null]")
  = Some ["a"; String "b" (String (ascii_of 10) (string_of_bytes [0xC3; 0xA9]));
          EmptyString]
  /\ JSON.Unmarshal_strings (dq "['a',1]") = None
  /\ JSON.Unmarshal_strings (dq "['a'] x") = None
  /\ JSON.Unmarshal_strings "[]" = Some []
  /\ JSON.Unmarshal_strings (dq "['\ud83d\ude00']")
     = Some [string_of_bytes [0xF0; 0x9F; 0x98; 0x80]]
  /\ JSON.Unmarshal_strings (dq "['a',]") = None.
Proof. vm_compute. repeat split; reflexivity. Qed.

Example json_parse_1 :
  JSON.parse (dq "{'id': 42, 'x': [1.5e3, true, {'y': null}]}")
  = Some (JSON.JObject
      [("id", JSON.JNumber "42");
       ("x", JSON.JArray [JSON.JNumber "1.5e3"; JSON.JBool true;
                          JSON.JObject [("y", JSON.JNull)]])]).
Proof. vm_compute. reflexivity. Qed.

Example unmarshal_user_1 :
  Telegram.Unmarshal_User
    (dq "{'id':42,'first_name':'Test','allows_write_to_pm':true,'Username':'tu','language_code':null}")
  = Some (Telegram.mkUser 42 "Test" EmptyString "tu" EmptyString)
  /\ Telegram.Unmarshal_User (dq "{'id':4.0}") = None
  /\ Telegram.Unmarshal_User (dq "{'id':'4'}") = None
  /\ Telegram.Unmarshal_User (dq "{'first_name':'x'}")
     = Some (Telegram.mkUser 0 "x" EmptyString EmptyString EmptyString)
  /\ Telegram.Unmarshal_User "[1]" = None.
Proof. vm_compute. repeat split; reflexivity. Qed.

(** ** Identity verification *)

Section TelegramFacts.
Import Telegram.

Lemma hex_digit_lower (n : Z) :
  GoStrings.lower_byte (Hex.digit n) = Hex.digit n.
Proof.
  unfold Hex.digit. generalize (Z.to_nat n) as k. intros k.
  do 16 (destruct k as [|k]; [reflexivity|]).
  reflexivity.
Qed.

Lemma ToLower_EncodeToString (bs : list Z) :
  GoStrings.ToLower (Hex.EncodeToString bs) = Hex.EncodeToString bs.
Proof.
  induction bs as [|b bs IH]; [reflexivity|].
  cbn [Hex.EncodeToString GoStrings.ToLower].
  by rewrite !hex_digit_lower, IH.
Qed.

Lemma Sum256_cons (msg : list Z) : ∃ b bs, SHA256.Sum256 msg = b :: bs.
Proof.
  unfold SHA256.Sum256, SHA256.digest_bytes.
  generalize (fold_left SHA256.compress
    (SHA256.chunks (length (SHA256.pad msg)) 64 (SHA256.pad msg))
    SHA256.init).
  intros s. cbn [flat_map SHA256.be_bytes app]. eauto.
Qed.

Lemma expected_nonempty botToken values :
  expected botToken values ≠ EmptyString.
Proof.
  unfold expected, HMAC.Sum.
  match goal with
  | |- Hex.EncodeToString (SHA256.Sum256 ?m) ≠ _ =>
      destruct (Sum256_cons m) as (b & bs & ->)
  end.
  discriminate.
Qed.

Lemma ToLower_nonempty s :
  GoStrings.ToLower s = EmptyString → s = EmptyString.
Proof. by destruct s. Qed.

(** The Go map is ranged over in an unspecified order; sorting makes the
    data-check string the same for every order of the keys. *)
Lemma dataCheckString_any_order (values : URL.Values) (keys : list string) :
  keys ≡ₚ (map_to_list values).*1 →
  GoStrings.Join (merge_sort String.le (pairs values keys)) newline
  = dataCheckString values.
Proof.
  intros Hperm. unfold dataCheckString. f_equal.
  apply (Sorted_unique String.le).
  - apply Sorted_merge_sort, _.
  - apply Sorted_merge_sort, _.
  - rewrite !merge_sort_Permutation. unfold pairs. by rewrite Hperm.
Qed.

(** A payload that carries the signature of its own data-check string (in
    either letter case), a decimal [auth_date] that is not older than
    [maxAge] and a user object with a non-zero id is accepted, with that
    user and that date. *)
Lemma VerifyInitData_signed_ok now initData botToken maxAge values sec u :
  URL.ParseQuery initData = (values, None) →
  GoStrings.ToLower (URL.Get values "hash") = expected botToken values →
  Strconv.ParseInt (URL.Get values "auth_date") = Some sec →
  (0 <? maxAge) && (maxAge <? GoTime.Since now (GoTime.Unix sec)) = false →
  Unmarshal_User (URL.Get values "user") = Some u →
  ID u ≠ 0 →
  VerifyInitData now initData botToken maxAge
  = inr (mkAuthResult u (GoTime.Unix sec)).
Proof.
  intros Hparse Hhash Hdate Hage Huser Hid.
  unfold VerifyInitData. rewrite Hparse.
  destruct (String.eqb_spec (URL.Get values "hash") EmptyString) as [He|_].
  { rewrite He in Hhash. symmetry in Hhash.
    by apply expected_nonempty in Hhash. }
  rewrite Hhash. unfold expected at 1 2.
  rewrite ToLower_EncodeToString, String.eqb_refl. cbn [negb].
  destruct (String.eqb_spec (URL.Get values "auth_date") EmptyString)
    as [He|_].
  { by rewrite He in Hdate. }
  rewrite Hdate, Hage.
  destruct (String.eqb_spec (URL.Get values "user") EmptyString) as [He|_].
  { by rewrite He in Huser. }
  rewrite Huser. destruct (Z.eqb_spec (ID u) 0); [done|reflexivity].
Qed.

End TelegramFacts.

Section TelegramClaims.
Import Telegram.

(** A signed payload is accepted whatever the order of its fields, with
    unknown extra fields, and with the hash in upper case. *)
Example VerifyInitData_valid_orders :
  let ok := inr (mkAuthResult Fixtures.plainUser Fixtures.authInstant) in
  VerifyInitData Fixtures.elevenMinutesLater
    (Fixtures.signed Fixtures.testBotToken Fixtures.plainBody)
    Fixtures.testBotToken (20 * GoTime.Minute) = ok
  /\ VerifyInitData Fixtures.elevenMinutesLater
    ("hash=" +:+ expected Fixtures.testBotToken
                   (URL.ParseQuery Fixtures.plainBody).1
     +:+ "&chat_instance=-1234567890&user=%7B%22id%22%3A42%2C%22first_name%22%3A%22Test%22%7D&auth_date=1700000000")
    Fixtures.testBotToken (20 * GoTime.Minute) = ok.
Proof. vm_compute. split; reflexivity. Qed.


(** C5. A payload that is accepted at some time under some maximum age
    is rejected as expired whenever the maximum age is positive and
    smaller than the time since its auth_date, and is accepted at every
    time when the maximum age is zero. *)
Theorem VerifyInitData_expiry now0 maxAge0 initData botToken res :
  VerifyInitData now0 initData botToken maxAge0 = inr res →
  (∀ now maxAge,
      0 < maxAge → maxAge < GoTime.Since now (AuthDate res) →
      VerifyInitData now initData botToken maxAge = inl ErrAuthDateExpired)
  /\ (∀ now, VerifyInitData now initData botToken 0 = inr res).
Proof.
  unfold VerifyInitData.
  destruct (URL.ParseQuery initData) as [values [e|]]; [discriminate|].
  destruct (String.eqb (URL.Get values "hash") EmptyString); [discriminate|].
  destruct (negb _); [discriminate|].
  destruct (String.eqb (URL.Get values "auth_date") EmptyString);
    [discriminate|].
  destruct (Strconv.ParseInt _) as [sec|]; [|discriminate].
  destruct (_ && _); [discriminate|].
  destruct (String.eqb (URL.Get values "user") EmptyString); [discriminate|].
  destruct (Unmarshal_User _) as [u|]; [|discriminate].
  destruct (ID u =? 0); [discriminate|].
  intros [= <-]. cbn [AuthDate]. split.
  - intros now maxAge Hpos Hold.
    apply Z.ltb_lt in Hpos, Hold. by rewrite Hpos, Hold.
  - intros now. reflexivity.
Qed.

Lemma VerifyInitData_expiry_witness :
  VerifyInitData Fixtures.elevenMinutesLater
    (Fixtures.signed Fixtures.testBotToken Fixtures.plainBody)
    Fixtures.testBotToken (10 * GoTime.Minute) = inl ErrAuthDateExpired
  /\ VerifyInitData Fixtures.elevenMinutesLater
    (Fixtures.signed Fixtures.testBotToken Fixtures.plainBody)
    Fixtures.testBotToken 0
    = inr (mkAuthResult Fixtures.plainUser Fixtures.authInstant).
Proof.
  assert (H : VerifyInitData Fixtures.authInstant
                (Fixtures.signed Fixtures.testBotToken Fixtures.plainBody)
                Fixtures.testBotToken (10 * GoTime.Minute)
              = inr (mkAuthResult Fixtures.plainUser Fixtures.authInstant))
    by (vm_compute; reflexivity).
  destruct (VerifyInitData_expiry _ _ _ _ _ H) as [Hexp Hzero].
  split.
  - apply Hexp; vm_compute; reflexivity.
  - apply Hzero.
Defined.

(** When the difference fits a Duration, time.Since is the difference
    in nanoseconds between the clock and the Unix time. *)
Lemma Since_Unix_exact now_sec now_nsec sec :
  Strconv.int64_min <= sec + GoTime.unixToInternal <= Strconv.int64_max →
  let d := (now_sec - sec) * GoTime.Second + now_nsec in
  GoTime.minDuration <= d <= GoTime.maxDuration →
  GoTime.Since (GoTime.mkTime (now_sec + GoTime.unixToInternal) now_nsec)
               (GoTime.Unix sec) = d.
Proof.
  unfold Strconv.int64_min, Strconv.int64_max, GoTime.Since, GoTime.Sub,
    GoTime.Unix, GoTime.saturate, GoTime.wrap64, GoTime.minDuration,
    GoTime.maxDuration, GoTime.unixToInternal, GoTime.Second.
  cbn [GoTime.sec GoTime.nsec]. cbv zeta. intros Hs Hd.
  assert (Hw : (sec + 62135596800 + 2 ^ 63) mod 2 ^ 64 - 2 ^ 63
               = sec + 62135596800).
  { rewrite Z.mod_small; lia. }
  rewrite Hw.
  destruct (Z.ltb_spec ((now_sec + 62135596800 - (sec + 62135596800))
                        * 1000000000 + (now_nsec - 0)) (- 2 ^ 63)); [lia|].
  destruct (Z.ltb_spec (2 ^ 63 - 1)
              ((now_sec + 62135596800 - (sec + 62135596800))
               * 1000000000 + (now_nsec - 0))); lia.
Qed.

End TelegramClaims.

(** ** The authentication middleware *)

Section MiddlewareClaims.
Import Telegram HTTPTransport.

(** Each failure of the verifier is reached by some payload. *)
Example VerifyInitData_failures :
  let verify now body :=
    VerifyInitData now body Fixtures.testBotToken (10 * GoTime.Minute) in
  let sign := Fixtures.signed Fixtures.testBotToken in
  verify Fixtures.authInstant "auth_date=1700000000" = inl ErrMissingHash
  /\ verify Fixtures.authInstant "auth_date=1700000000&hash=00"
     = inl ErrSignatureMismatch
  /\ verify Fixtures.authInstant (sign "user=%7B%22id%22%3A42%7D")
     = inl ErrMissingAuthDate
  /\ verify Fixtures.authInstant
       (sign "auth_date=yesterday&user=%7B%22id%22%3A42%7D")
     = inl ErrInvalidAuthDate
  /\ verify Fixtures.elevenMinutesLater (sign Fixtures.plainBody)
     = inl ErrAuthDateExpired
  /\ verify Fixtures.authInstant (sign "auth_date=1700000000")
     = inl ErrMissingUser
  /\ verify Fixtures.authInstant (sign "auth_date=1700000000&user=%7Bid")
     = inl ErrInvalidUserJSON
  /\ verify Fixtures.authInstant
       (sign "auth_date=1700000000&user=%7B%22id%22%3A0%7D")
     = inl ErrMissingUserID
  /\ verify Fixtures.authInstant "auth_date=%zz"
     = inl (ErrParseQuery URL.EscapeError).
Proof. vm_compute. do 8 (split; [reflexivity|]). reflexivity. Qed.

(** C9. Two requests that carry an identity payload which the verifier
    rejects, for whatever reasons [e1] and [e2] and at whatever times,
    are answered alike: status 401 and the one message "invalid telegram
    init data". *)
Theorem Wrap_failures_indistinguishable
    (m : TelegramAuthMiddleware) (now1 now2 : GoTime.Time)
    (r1 r2 : Request) (e1 e2 : Error) :
  initDataOf r1 ≠ EmptyString →
  initDataOf r2 ≠ EmptyString →
  VerifyInitData now1 (initDataOf r1) (BotToken m) (MaxAge m) = inl e1 →
  VerifyInitData now2 (initDataOf r2) (BotToken m) (MaxAge m) = inl e2 →
  Wrap m now1 r1 = Wrap m now2 r2
  /\ Wrap m now1 r1
     = Answered (mkResponse 401 "text/plain; charset=utf-8"
                   ("invalid telegram init data" +:+ newline)).
Proof.
  intros Hp1 Hp2 Hv1 Hv2.
  apply String.eqb_neq in Hp1, Hp2.
  unfold Wrap. cbv zeta.
  rewrite Hp1, Hp2, Hv1, Hv2. split; reflexivity.
Qed.

Lemma Wrap_failures_indistinguishable_witness :
  Wrap Fixtures.middleware Fixtures.authInstant
    (Fixtures.request "auth_date=1700000000")
  = Wrap Fixtures.middleware Fixtures.elevenMinutesLater
      (Fixtures.request
         (Fixtures.signed Fixtures.testBotToken Fixtures.plainBody))
  /\ Wrap Fixtures.middleware Fixtures.authInstant
       (Fixtures.request "auth_date=1700000000")
     = Answered (mkResponse 401 "text/plain; charset=utf-8"
                   ("invalid telegram init data" +:+ newline)).
Proof.
  apply (Wrap_failures_indistinguishable Fixtures.middleware
           Fixtures.authInstant Fixtures.elevenMinutesLater
           (Fixtures.request "auth_date=1700000000")
           (Fixtures.request
              (Fixtures.signed Fixtures.testBotToken Fixtures.plainBody))
           ErrMissingHash ErrAuthDateExpired);
    vm_compute; (reflexivity || discriminate).
Defined.

(** A request without the header is answered before verification, with
    the same status and a message of its own. *)
Example Wrap_missing_header :
  Wrap Fixtures.middleware Fixtures.authInstant (mkRequest ∅)
  = Answered (mkResponse 401 "text/plain; charset=utf-8"
                ("missing X-Telegram-Init-Data" +:+ newline)).
Proof. reflexivity. Qed.

End MiddlewareClaims.
(** ** Catalog mapping *)

Section CatalogClaims.
Import Saleor TMA.
Context {W : Type}.
Implicit Types (h : Handler Op W) (w : W) (s : Service).

Lemma trimmed_nonempty_filter (parts out : list string) :
  trimmed_nonempty parts out
  = out ++ filter (fun p => p ≠ EmptyString) (GoStrings.TrimSpace <$> parts).
Proof.
  revert out. induction parts as [|p parts IH]; intros out;
    cbn [trimmed_nonempty].
  - by rewrite app_nil_r.
  - rewrite fmap_cons.
    destruct (String.eqb_spec (GoStrings.TrimSpace p) EmptyString) as [He|Hne].
    + rewrite IH, filter_cons_False; [done|]. by intros [].
    + rewrite IH, filter_cons_True by done. by rewrite <- app_assoc.
Qed.

Lemma parseTags_skip (pre rest : list saleorMeta) :
  Forall (fun m => Key m ≠ "tma_tags") pre →
  parseTagsFromMetadata (pre ++ rest) = parseTagsFromMetadata rest.
Proof.
  induction 1 as [|m pre Hm _ IH]; [done|]. cbn.
  apply String.eqb_neq in Hm. by rewrite Hm.
Qed.

(** C6. The three values of the specification, the absent and the blank
    entry, and the general rule: the first tma_tags entry decides; its
    trimmed value, when it starts with a bracket and decodes as a JSON
    array of strings, gives that array; otherwise the value is split on
    commas, the tokens trimmed and the empty ones dropped. *)
Theorem parseTagsFromMetadata_spec :
  parseTagsFromMetadata [mkMeta "tma_tags" "a,b,c"] = ["a"; "b"; "c"]
  /\ parseTagsFromMetadata [mkMeta "tma_tags" (dq "['a','b']")] = ["a"; "b"]
  /\ parseTagsFromMetadata [] = []
  /\ (∀ meta, Forall (fun m => Key m ≠ "tma_tags") meta →
        parseTagsFromMetadata meta = [])
  /\ (∀ pre m post,
        Forall (fun x => Key x ≠ "tma_tags") pre →
        Key m = "tma_tags" →
        let v := GoStrings.TrimSpace (Value m) in
        let split :=
          filter (fun p => p ≠ EmptyString)
            (GoStrings.TrimSpace <$> GoStrings.Split v ","%char) in
        (v = EmptyString → parseTagsFromMetadata (pre ++ m :: post) = [])
        /\ (v ≠ EmptyString → GoStrings.HasPrefix v "[" = true →
            ∀ arr, JSON.Unmarshal_strings v = Some arr →
              parseTagsFromMetadata (pre ++ m :: post) = arr)
        /\ (v ≠ EmptyString → GoStrings.HasPrefix v "[" = true →
            JSON.Unmarshal_strings v = None →
            parseTagsFromMetadata (pre ++ m :: post) = split)
        /\ (v ≠ EmptyString → GoStrings.HasPrefix v "[" = false →
            parseTagsFromMetadata (pre ++ m :: post) = split)).
Proof.
  split; [vm_compute; reflexivity|].
  split; [vm_compute; reflexivity|].
  split; [reflexivity|].
  split.
  { intros meta Hmeta. rewrite <- (app_nil_r meta). by rewrite parseTags_skip. }
  intros pre m post Hpre Hkey v split.
  rewrite (parseTags_skip pre (m :: post) Hpre).
  cbn [parseTagsFromMetadata]. rewrite Hkey, String.eqb_refl. cbn [negb].
  fold v. repeat split.
  - intros ->. reflexivity.
  - intros Hv Hp arr Harr. apply String.eqb_neq in Hv.
    by rewrite Hv, Hp, Harr.
  - intros Hv Hp Harr. apply String.eqb_neq in Hv.
    rewrite Hv, Hp, Harr. apply trimmed_nonempty_filter.
  - intros Hv Hp. apply String.eqb_neq in Hv.
    rewrite Hv, Hp. apply trimmed_nonempty_filter.
Qed.

Lemma mapRestaurants_loop_map (nodes : list saleorRestaurantNode) out :
  mapRestaurants_loop nodes out
  = out ++ map (fun n => mkRestaurant (rn_ID n) (rn_Name n)
                           (rn_Description n)
                           (imageURL (rn_BackgroundImage n))
                           (parseTagsFromMetadata (rn_Metadata n))) nodes.
Proof.
  revert out. induction nodes as [|n nodes IH]; intros out;
    cbn [mapRestaurants_loop map].
  - by rewrite app_nil_r.
  - by rewrite IH, <- app_assoc.
Qed.

Lemma dishes_loop_flat_map restaurantID categoryID
    (nodes : list saleorProductNode) (out : list Dish) :
  dishes_loop restaurantID categoryID nodes out
  = out ++ flat_map (fun n => dishes_loop restaurantID categoryID [n] []) nodes.
Proof.
  revert out. induction nodes as [|n nodes IH]; intros out;
    cbn [dishes_loop flat_map].
  - by rewrite app_nil_r.
  - destruct (Variants n) as [|v vs]; cbn [app].
    + apply IH.
    + by rewrite IH, <- app_assoc.
Qed.

(** C3. When the parent query answers that the category is not found,
    has no parent, or has a parent other than the restaurant, ListDishes
    returns the error "category does not belong to restaurant" and no
    dishes, and the product query is not sent. *)
Theorem ListDishes_foreign_category s restaurantID categoryID h w w1
    (resp : option categoryParent) :
  h _ (CategoryParent categoryID) w = (inr resp, w1) →
  (resp = None
   ∨ (∃ c, resp = Some c ∧ Parent c = None)
   ∨ (∃ c p, resp = Some c ∧ Parent c = Some p ∧ p ≠ restaurantID)) →
  run h (ListDishes s restaurantID categoryID) w
  = (inl "category does not belong to restaurant",
     [existT _ (CategoryParent categoryID)], w1).
Proof.
  intros Hcall Hresp.
  cbn [ListDishes andThen categoryIsChildOf bind run]. rewrite Hcall.
  destruct Hresp as [->|[(c & -> & Hc)|(c & p & -> & Hc & Hp)]].
  - reflexivity.
  - rewrite Hc. reflexivity.
  - rewrite Hc. apply String.eqb_neq in Hp.
    cbn [bind]. rewrite Hp. reflexivity.
Qed.

(** C7. When the category belongs to the restaurant and the product
    query answers with [nodes], ListDishes succeeds, and its dishes are
    the dishes of the products in order, where a product without
    variants gives no dish and a product with variants gives one dish:
    its id is the id of the first variant, its price is the gross price
    of that variant, or amount 0 and empty currency when the pricing or
    the price is absent. *)
Theorem ListDishes_one_dish_per_product s restaurantID categoryID h w w1 w2
    (nodes : list saleorProductNode) :
  h _ (CategoryParent categoryID) w
    = (inr (Some (mkCategoryParent (Some restaurantID))), w1) →
  h _ (CategoryDishes 100 (channelSlug s) [categoryID]) w1
    = (inr nodes, w2) →
  ∃ per : saleorProductNode → list Dish,
    run h (ListDishes s restaurantID categoryID) w
    = (inr (flat_map per nodes),
       [existT _ (CategoryParent categoryID);
        existT _ (CategoryDishes 100 (channelSlug s) [categoryID])], w2)
    ∧ ∀ n,
        (Variants n = [] → per n = [])
        ∧ (∀ v vs, Variants n = v :: vs →
             ∃ d, per n = [d]
               ∧ Dish_ID d = Variant_ID v
               ∧ ProductID d = pn_ID n
               ∧ Dish_RestaurantID d = restaurantID
               ∧ CategoryID d = categoryID
               ∧ Dish_Name d = pn_Name n
               ∧ Dish_Description d = pn_Description n
               ∧ (Pricing v = None → Price d = mkMoney 0%float EmptyString)
               ∧ (∀ pr, Pricing v = Some pr → Pricing_Price pr = None →
                    Price d = mkMoney 0%float EmptyString)
               ∧ (∀ pr p, Pricing v = Some pr → Pricing_Price pr = Some p →
                    Amount (Price d) = Amount (Gross p)
                    ∧ Currency (Price d) = Currency (Gross p))).
Proof.
  intros Hparent Hproducts.
  exists (fun n => dishes_loop restaurantID categoryID [n] []). split.
  - cbn [ListDishes andThen categoryIsChildOf bind run]. rewrite Hparent.
    cbn [Parent bind]. rewrite String.eqb_refl. cbn [negb run].
    rewrite Hproducts. cbn [run].
    by rewrite dishes_loop_flat_map.
  - intros n. split.
    + intros Hn. cbn [dishes_loop]. by rewrite Hn.
    + intros v vs Hn. cbn [dishes_loop]. rewrite Hn. cbn [app].
      eexists. split; [reflexivity|].
      cbn [Dish_ID ProductID Dish_RestaurantID CategoryID Dish_Name
           Dish_Description Price].
      split_and!; try reflexivity; unfold variantMoney.
      * by intros ->.
      * by intros pr -> ->.
      * by intros pr p -> ->.
Qed.

(** C10. With a root category configured, ListRestaurants is the same
    program for every search string: it sends the same query and gives
    the same result from the same answers. *)
Theorem ListRestaurants_root_ignores_search s (search1 search2 : string) :
  restaurantRootCategoryID s ≠ EmptyString →
  ListRestaurants s search1 = ListRestaurants s search2
  ∧ ∀ (V : Type) (saleor : Handler Op V) (v : V),
      run saleor (ListRestaurants s search1) v
      = run saleor (ListRestaurants s search2) v.
Proof.
  intros Hroot. apply String.eqb_neq in Hroot.
  unfold ListRestaurants. rewrite Hroot. split; reflexivity.
Qed.

End CatalogClaims.

Section CatalogWitnesses.
Import Saleor TMA.

Lemma ListDishes_foreign_category_witness :
  run (Fixtures.cannedSaleor Fixtures.orderLinesCreateResp)
    (ListDishes Fixtures.service "rest-2" "cat-1") 0%nat
  = (inl "category does not belong to restaurant",
     [existT _ (CategoryParent "cat-1")], 1%nat).
Proof.
  apply (ListDishes_foreign_category Fixtures.service "rest-2" "cat-1"
           (Fixtures.cannedSaleor Fixtures.orderLinesCreateResp) 0%nat 1%nat
           (Some (mkCategoryParent (Some "rest-1")))).
  - reflexivity.
  - right. right. exists (mkCategoryParent (Some "rest-1")), "rest-1".
    split; [reflexivity|]. split; [reflexivity|]. discriminate.
Defined.

Lemma ListDishes_one_dish_per_product_witness :
  ∃ per : saleorProductNode → list Dish,
    run (Fixtures.cannedSaleor Fixtures.orderLinesCreateResp)
      (ListDishes Fixtures.service "rest-1" "cat-1") 0%nat
    = (inr (flat_map per [Fixtures.productNode]),
       [existT _ (CategoryParent "cat-1");
        existT _ (CategoryDishes 100 "default-channel" ["cat-1"])], 2%nat).
Proof.
  destruct (ListDishes_one_dish_per_product Fixtures.service "rest-1" "cat-1"
              (Fixtures.cannedSaleor Fixtures.orderLinesCreateResp)
              0%nat 1%nat 2%nat [Fixtures.productNode]
              eq_refl eq_refl) as (per & Hrun & _).
  exists per. exact Hrun.
Defined.

Lemma ListRestaurants_root_ignores_search_witness :
  run (Fixtures.cannedSaleor Fixtures.orderLinesCreateResp)
    (ListRestaurants Fixtures.service "pizza") 0%nat
  = run (Fixtures.cannedSaleor Fixtures.orderLinesCreateResp)
      (ListRestaurants Fixtures.service "sushi") 0%nat.
Proof.
  apply (ListRestaurants_root_ignores_search Fixtures.service "pizza" "sushi").
  discriminate.
Defined.

(** The listing of the end-to-end scenario: one restaurant with its
    tags, one dish priced 12.50 USD. *)
Example listing_end_to_end :
  (run (Fixtures.cannedSaleor Fixtures.orderLinesCreateResp)
     (ListRestaurants Fixtures.service EmptyString) 0%nat).1.1
  = inr [mkRestaurant "rest-1" "Pizza Palace" "Best pizza in town"
           "https://cdn.example.com/pizza.jpg"
           ["pizza"; "italian"; "delivery"]]
  /\ (run (Fixtures.cannedSaleor Fixtures.orderLinesCreateResp)
        (ListDishes Fixtures.service "rest-1" "cat-1") 0%nat).1.1
     = inr [mkDish "var-1" "prod-1" "rest-1" "cat-1" "Margherita"
              "Classic tomato and mozzarella"
              "https://cdn.example.com/margherita.jpg"
              (mkMoney 12.5%float "USD")].
Proof. split; vm_compute; reflexivity. Qed.

End CatalogWitnesses.

(** ** Order placement *)

Section OrderClaims.
Import Saleor TMA.
Context {W : Type}.
Implicit Types (h : Handler Op W) (w : W) (s : Service).

Lemma orderLines_positive (items : list CartItem) lines :
  Forall (fun it => 1 <= Quantity it) items →
  orderLines items lines
  = inr (lines ++ map lineOf items).
Proof.
  intros Hpos. revert lines.
  induction Hpos as [|it items Hit _ IH]; intros lines; cbn [orderLines map].
  - by rewrite app_nil_r.
  - destruct (Z.leb_spec (Quantity it) 0); [lia|].
    by rewrite IH, <- app_assoc.
Qed.


Lemma validate_delivery_xor (input : PlaceOrderInput) :
  validatePlaceOrderInput input = None →
  RestaurantID input ≠ EmptyString ∧ Items input ≠ []
  ∧ (coordsSet input ↔ ¬ mapsLinkSet input).
Proof.
  unfold validatePlaceOrderInput, coordsSet, mapsLinkSet.
  destruct (String.eqb_spec (RestaurantID input) EmptyString); [done|].
  destruct (Items input) as [|it items]; [done|]. cbn [length Nat.eqb].
  destruct (String.eqb_spec (GoStrings.TrimSpace (GoogleMapsURL input))
              EmptyString) as [He|Hne];
    destruct (DeliveryLocation_ input); cbn; intros [=]; split_and!;
    try done; split; intros ?; congruence.
Qed.


(** C4. For an input that passes the validation, the first thing
    PlaceOrder does is the create-order call, with the channel, the
    e-mail tg-<user id>@tma.local, the comment, and metadata that hold
    the user id and the restaurant id, then the lat and lng keys and no
    maps-link key when coordinates are given, or the maps-link key with
    the link and no lat or lng key otherwise. *)
Theorem PlaceOrder_create_call s (telegramUserID : Z) (input : PlaceOrderInput) :
  validatePlaceOrderInput input = None →
  let vars := createDraftVars s telegramUserID input in
  let keys := map meta_key (metadata vars) in
  (∃ k, PlaceOrder s telegramUserID input = Do (CreateDraft vars) k)
  ∧ (∀ h w, ∃ calls,
       (run h (PlaceOrder s telegramUserID input) w).1.2
       = existT _ (CreateDraft vars) :: calls)
  ∧ channelId vars = channelID s
  ∧ userEmail vars
    = "tg-" +:+ Strconv.FormatInt telegramUserID +:+ "@tma.local"
  ∧ customerNote vars = Comment input
  ∧ mkMetadataItem "tma.telegramUserId" (Strconv.FormatInt telegramUserID)
      ∈ metadata vars
  ∧ mkMetadataItem "tma.restaurantId" (RestaurantID input) ∈ metadata vars
  ∧ (coordsSet input →
     ¬ mapsLinkSet input
     ∧ ("tma.delivery.lat" ∈ keys) ∧ ("tma.delivery.lng" ∈ keys)
     ∧ ("tma.delivery.googleMapsUrl" ∉ keys))
  ∧ (mapsLinkSet input →
     ¬ coordsSet input
     ∧ mkMetadataItem "tma.delivery.googleMapsUrl" (GoogleMapsURL input)
         ∈ metadata vars
     ∧ ("tma.delivery.lat" ∉ keys) ∧ ("tma.delivery.lng" ∉ keys)).
Proof.
  intros Hvalid vars keys.
  destruct (validate_delivery_xor input Hvalid) as (_ & _ & Hxor).
  split; [|split].
  - unfold PlaceOrder. rewrite Hvalid.
    cbn [andThen createDraftOrder bind]. eauto.
  - intros h w. unfold PlaceOrder. rewrite Hvalid.
    cbn [andThen createDraftOrder bind run]. fold vars.
    destruct (h _ (CreateDraft vars) w) as [r w1].
    destruct (run h _ w1) as [[a calls] w2]. eauto.
  - subst keys vars. unfold createDraftVars, buildOrderMetadata.
    cbn [channelId userEmail customerNote metadata].
    unfold coordsSet in *.
    destruct (DeliveryLocation_ input) as [loc|]; cbn [app map meta_key].
    + assert (Hno : ¬ mapsLinkSet input) by (by apply Hxor).
      split_and!; try reflexivity; try (by repeat constructor);
        intros Hx; try done;
        split_and!; try done; try (by repeat constructor); compute_done.
    + split_and!; try reflexivity; try (by repeat constructor);
        intros Hx; try (by exfalso; apply Hx);
        split_and!; try (by intros Hc; apply Hc);
        try (by repeat constructor); compute_done.
Qed.

(** C8, as the code has it. When the draft order was created, every
    quantity is at least 1, and the answer to the line submission has no
    order and at least one error, PlaceOrder fails with the message of
    the first error after "saleor orderLinesCreate: ", and the order is
    not completed. *)
Theorem PlaceOrder_line_error s (telegramUserID : Z) (input : PlaceOrderInput)
    h w w1 w2 (created lines : mutationPayload) (o : orderRef)
    (e : mutationError) (es : list mutationError) :
  validatePlaceOrderInput input = None →
  Forall (fun it => 1 <= Quantity it) (Items input) →
  h _ (CreateDraft (createDraftVars s telegramUserID input)) w
    = (inr created, w1) →
  Order created = Some o →
  h _ (AddLines (Order_ID o) (map lineOf (Items input))) w1
    = (inr lines, w2) →
  Order lines = None →
  Errors lines = e :: es →
  run h (PlaceOrder s telegramUserID input) w
  = (inl ("saleor orderLinesCreate: " +:+ Message e),
     [existT _ (CreateDraft (createDraftVars s telegramUserID input));
      existT _ (AddLines (Order_ID o) (map lineOf (Items input)))],
     w2).
Proof.
  intros Hvalid Hqty Hcreate Horder Hlines Hnil Herrs.
  unfold PlaceOrder. rewrite Hvalid.
  cbn [andThen createDraftOrder bind run]. rewrite Hcreate, Horder.
  cbn [bind]. unfold addOrderLines.
  rewrite (orderLines_positive _ _ Hqty). cbn [app bind run].
  rewrite Hlines, Hnil, Herrs. reflexivity.
Qed.

(** When the answer to the line submission carries an order, its errors
    are not read and the order goes on to completion. *)
Lemma PlaceOrder_line_order_present s (telegramUserID : Z)
    (input : PlaceOrderInput) h w w1 w2
    (created lines : mutationPayload) (o o' : orderRef) :
  validatePlaceOrderInput input = None →
  Forall (fun it => 1 <= Quantity it) (Items input) →
  h _ (CreateDraft (createDraftVars s telegramUserID input)) w
    = (inr created, w1) →
  Order created = Some o →
  h _ (AddLines (Order_ID o) (map lineOf (Items input))) w1
    = (inr lines, w2) →
  Order lines = Some o' →
  run h (PlaceOrder s telegramUserID input) w
  = let '(r, calls, w3) := run h (completeDraftOrder s (Order_ID o)) w2 in
    (r,
     existT _ (CreateDraft (createDraftVars s telegramUserID input))
     :: existT _ (AddLines (Order_ID o) (map lineOf (Items input)))
     :: calls, w3).
Proof.
  intros Hvalid Hqty Hcreate Horder Hlines Hsome.
  unfold PlaceOrder. rewrite Hvalid.
  cbn [andThen createDraftOrder bind run]. rewrite Hcreate, Horder.
  cbn [bind]. unfold addOrderLines.
  rewrite (orderLines_positive _ _ Hqty). cbn [app bind run].
  rewrite Hlines, Hsome. cbn [bind].
  destruct (run h (completeDraftOrder s (Order_ID o)) w2) as [[r calls] w3].
  reflexivity.
Qed.

End OrderClaims.

Section InlineAgreement.
Import Saleor TMA.
Context {W : Type}.

(** The two texts of PlaceOrder make the same calls and leave Saleor in the
    same state; they return the same result, except that an answer with
    neither an order nor an error to the creation or to the completion is
    reported with different words. *)
Lemma PlaceOrder_inline_agrees (s : Service) (telegramUserID : Z)
    (input : PlaceOrderInput) (h : Handler Op W) (w : W) :
  let old := run h (PlaceOrder_inline s telegramUserID input) w in
  let new := run h (PlaceOrder s telegramUserID input) w in
  old.1.2 = new.1.2 ∧ old.2 = new.2
  ∧ (old.1.1 = new.1.1
     ∨ (old.1.1 = inl "saleor draftOrderCreate failed"
        ∧ new.1.1 = inl "saleor draftOrderCreate: no order returned")
     ∨ (old.1.1 = inl "saleor draftOrderComplete failed"
        ∧ new.1.1 = inl "saleor draftOrderComplete: no order returned")).
Proof.
  unfold PlaceOrder_inline, PlaceOrder, validatePlaceOrderInput.
  destruct (String.eqb (RestaurantID input) EmptyString); [cbn; auto 10|].
  destruct (length (Items input) =? 0)%nat; [cbn; auto 10|].
  destruct (DeliveryLocation_ input) as [loc|] eqn:Hloc;
    destruct (String.eqb (GoStrings.TrimSpace (GoogleMapsURL input)) EmptyString);
    cbn [Bool.eqb negb]; try (cbn; auto 10; fail).
  all: cbn [andThen createDraftOrder bind run].
  all: unfold createDraftVars, buildOrderMetadata; rewrite Hloc.
  all: destruct (h mutationPayload (CreateDraft _) w) as [[err|resp] w1];
    [cbn; auto 10|].
  all: destruct (Order resp) as [o|];
    [|destruct (firstMessage (Errors resp)); cbn; auto 10].
  all: cbn [bind]; unfold addOrderLines;
    destruct (orderLines (Items input) []) as [err|lines]; [cbn; auto 10|].
  all: cbn [bind run];
    destruct (h mutationPayload (AddLines _ _) w1) as [[err|lresp] w2];
    [cbn; auto 10|].
  all: destruct (Order lresp) as [o1|], (firstMessage (Errors lresp)) as [m|];
    try (cbn; auto 10; fail).
  all: cbn [bind completeDraftOrder run];
    destruct (h mutationPayload (CompleteDraft _) w2) as [[err|cresp] w3];
    [cbn; auto 10|];
    destruct (Order cresp) as [o2|];
    [|destruct (firstMessage (Errors cresp))]; cbn; auto 10.
Qed.

End InlineAgreement.

Section OrderWitnesses.
Import Saleor TMA.

(** The end-to-end order of the specification: quantity 2, coordinates
    (55.75, 37.62), user 12345. *)
Example PlaceOrder_end_to_end :
  run (Fixtures.cannedSaleor Fixtures.orderLinesCreateResp)
    (PlaceOrder Fixtures.service 12345 Fixtures.coordinatesInput) 0%nat
  = (inr (mkPlaceOrderResult "order-99" "UNFULFILLED"),
     [existT _ (CreateDraft
        (mkDraftOrderCreateInput "channel-id-1" "tg-12345@tma.local"
           "Ring the bell"
           [mkMetadataItem "tma.telegramUserId" "12345";
            mkMetadataItem "tma.restaurantId" "rest-1";
            mkMetadataItem "tma.delivery.lat" "55.750000";
            mkMetadataItem "tma.delivery.lng" "37.620000"]));
      existT _ (AddLines "order-99" [mkOrderLine "var-1" 2]);
      existT _ (CompleteDraft "order-99")],
     3%nat).
Proof. vm_compute. reflexivity. Qed.



Lemma PlaceOrder_create_call_witness :
  userEmail (createDraftVars Fixtures.service 12345 Fixtures.coordinatesInput)
  = "tg-" +:+ Strconv.FormatInt 12345 +:+ "@tma.local"
  ∧ (coordsSet Fixtures.coordinatesInput →
     "tma.delivery.googleMapsUrl"
     ∉ map meta_key
         (metadata (createDraftVars Fixtures.service 12345
                      Fixtures.coordinatesInput))).
Proof.
  destruct (PlaceOrder_create_call (W:=nat) Fixtures.service 12345
              Fixtures.coordinatesInput ltac:(vm_compute; reflexivity))
    as (_ & _ & _ & Hemail & _ & _ & _ & Hcoords & _).
  split; [exact Hemail|]. intros Hset. apply (Hcoords Hset).
Defined.

(** C8 fails when the answer carries an order next to its errors: the
    errors are not read and the order is completed. *)
Lemma PlaceOrder_line_errors_with_order_ignored :
  Errors Fixtures.orderWithErrorsResp
  = [mkMutationError "variant not available in channel"]
  ∧ run (Fixtures.cannedSaleor Fixtures.orderWithErrorsResp)
      (PlaceOrder Fixtures.service 1 Fixtures.mapsInput) 0%nat
    = (inr (mkPlaceOrderResult "order-99" "UNFULFILLED"),
       [existT _ (CreateDraft
          (createDraftVars Fixtures.service 1 Fixtures.mapsInput));
        existT _ (AddLines "order-99" [mkOrderLine "var-1" 1]);
        existT _ (CompleteDraft "order-99")],
       3%nat).
Proof. split; [reflexivity|]. vm_compute. reflexivity. Qed.

Lemma PlaceOrder_line_error_witness :
  run (Fixtures.cannedSaleor Fixtures.errLinesResp)
    (PlaceOrder Fixtures.service 1 Fixtures.mapsInput) 0%nat
  = (inl ("saleor orderLinesCreate: "
          +:+ "variant not available in channel"),
     [existT _ (CreateDraft
        (createDraftVars Fixtures.service 1 Fixtures.mapsInput));
      existT _ (AddLines "order-99" (map lineOf (Items Fixtures.mapsInput)))],
     2%nat).
Proof.
  apply (PlaceOrder_line_error Fixtures.service 1 Fixtures.mapsInput
           (Fixtures.cannedSaleor Fixtures.errLinesResp) 0%nat 1%nat 2%nat
           Fixtures.draftOrderCreateResp Fixtures.errLinesResp
           (mkOrderRef "order-99" "DRAFT")
           (mkMutationError "variant not available in channel") []).
  - vm_compute; reflexivity.
  - repeat constructor; cbn; lia.
  - reflexivity.
  - reflexivity.
  - reflexivity.
  - reflexivity.
  - reflexivity.
Defined.

End OrderWitnesses.

Section TagWitness.
Import TMA.

Lemma parseTagsFromMetadata_spec_witness :
  parseTagsFromMetadata
    [mkMeta "other" "x"; mkMeta "tma_tags" " pizza, italian ,,delivery "]
  = filter (fun p => p ≠ EmptyString)
      (GoStrings.TrimSpace
         <$> GoStrings.Split "pizza, italian ,,delivery" ","%char).
Proof.
  destruct parseTagsFromMetadata_spec as (_ & _ & _ & _ & Hgeneral).
  destruct (Hgeneral [mkMeta "other" "x"]
              (mkMeta "tma_tags" " pizza, italian ,,delivery ") [])
    as (_ & _ & _ & Hsplit).
  - repeat constructor. discriminate.
  - reflexivity.
  - apply Hsplit; [discriminate|reflexivity].
Defined.

End TagWitness.
